(** * check_positions: the query-batch pipeline of [bot.py]

    A shallow embedding of [bot.py] (extraction of queries from text and
    files, the batch loop of [process_queries], the report encoding and the
    message handler) and the properties of the specification stated over it.

    Conventions of the model.
    - A Python [str] is the list of its Unicode code points; [bytes] is a
      list of [Byte.byte].  Python [int]s are [Z].
    - The external collaborators ([organic_ya.Organic] and its
      [search_xmlriver], [xmltree.XmlTree], the Telegram calls that the
      source guards with [try]) are the fields of the class [Collaborators]:
      every theorem holds for every instance.  The lookup and the status edit
      answer by position in the batch, so the same query text may succeed at
      one position and raise at another.
    - Every external call is recorded in a trace of events; the state of a
      function (its local variables and the trace) survives a raised
      exception, as in Python.
    - [logger] calls have no effect on control flow and are not recorded.
    - [message.reply] and [message.answer] are recorded and answer as the
      [Channel] says: they may raise like any other call.  The functions
      named after the source's ([process_queries], [handle_message], ...)
      are the general ones ([process_queries_on], [handle_message_on], ...)
      on the channel [reliable], every reply of which returns.
    - Every exception of the model is an [Exception]; cancellation and the
      other [BaseException]s are outside it.
    - A header or a row is the list of the texts of its cells, as the [csv]
      writer renders them; a value the writer would refuse counts as a
      derivation that raised. *)

From Stdlib Require Import List NArith ZArith QArith Lia Bool.
From Stdlib.Strings Require Import Byte Ascii String.
From Stdlib Require Import DecimalString.
Import ListNotations.

Close Scope Q_scope.
Open Scope Z_scope.


(** ** Python strings and the codecs the source names *)

Definition codepoint := N.
Definition str := list codepoint.
Definition bytes := list byte.

Module Codec.

Definition byte_of_N (n : N) : byte :=
  match Byte.of_N n with Some b => b | None => x00 end.

Definition is_cont (b : N) : bool := ((128 <=? b) && (b <=? 191))%N.
Definition payload (b : N) : N := N.land b 63.

Definition in_range (lo b hi : N) : bool := ((lo <=? b) && (b <=? hi))%N.

(** [bytes.decode('utf-8')], strict: overlong forms, surrogates and code
    points above U+10FFFF raise [UnicodeDecodeError] ([None]). *)
Fixpoint utf_8_decode_N (bs : list N) : option str :=
  match bs with
  | [] => Some []
  | b0 :: r0 =>
      if (b0 <? 128)%N then option_map (cons b0) (utf_8_decode_N r0)
      else if in_range 194 b0 223 then
        match r0 with
        | b1 :: r1 =>
            if is_cont b1
            then option_map (cons (N.land b0 31 * 64 + payload b1)%N)
                            (utf_8_decode_N r1)
            else None
        | _ => None
        end
      else if in_range 224 b0 239 then
        match r0 with
        | b1 :: b2 :: r2 =>
            let lo := if (b0 =? 224)%N then 160%N else 128%N in
            let hi := if (b0 =? 237)%N then 159%N else 191%N in
            if in_range lo b1 hi && is_cont b2
            then option_map
                   (cons (N.land b0 15 * 4096 + payload b1 * 64 + payload b2)%N)
                   (utf_8_decode_N r2)
            else None
        | _ => None
        end
      else if in_range 240 b0 244 then
        match r0 with
        | b1 :: b2 :: b3 :: r3 =>
            let lo := if (b0 =? 240)%N then 144%N else 128%N in
            let hi := if (b0 =? 244)%N then 143%N else 191%N in
            if in_range lo b1 hi && is_cont b2 && is_cont b3
            then option_map
                   (cons (N.land b0 7 * 262144 + payload b1 * 4096
                          + payload b2 * 64 + payload b3)%N)
                   (utf_8_decode_N r3)
            else None
        | _ => None
        end
      else None
  end.

Definition utf_8_decode (data : bytes) : option str :=
  utf_8_decode_N (map Byte.to_N data).

Definition BOM_UTF8 : bytes := [xef; xbb; xbf].

(** [bytes.decode('utf-8-sig')]: one leading marker is dropped. *)
Definition utf_8_sig_decode (data : bytes) : option str :=
  match data with
  | xef :: xbb :: xbf :: rest => utf_8_decode rest
  | _ => utf_8_decode data
  end.

(** One code point in UTF-8; [None] is Python's [UnicodeEncodeError]
    (a surrogate).  Values above U+10FFFF occur in no Python [str]. *)
Definition utf_8_encode_cp (c : codepoint) : option bytes :=
  if (c <? 128)%N then Some [byte_of_N c]
  else if (c <? 2048)%N then
    Some [byte_of_N (192 + c / 64); byte_of_N (128 + c mod 64)]%N
  else if (c <? 65536)%N then
    if in_range 55296 c 57343 then None
    else Some [byte_of_N (224 + c / 4096); byte_of_N (128 + (c / 64) mod 64);
               byte_of_N (128 + c mod 64)]%N
  else if (c <? 1114112)%N then
    Some [byte_of_N (240 + c / 262144); byte_of_N (128 + (c / 4096) mod 64);
          byte_of_N (128 + (c / 64) mod 64); byte_of_N (128 + c mod 64)]%N
  else None.

Fixpoint utf_8_encode (s : str) : option bytes :=
  match s with
  | [] => Some []
  | c :: s' =>
      match utf_8_encode_cp c, utf_8_encode s' with
      | Some b, Some bs => Some (b ++ bs)
      | _, _ => None
      end
  end.

(** [str.encode('utf-8-sig')]: the marker, then the UTF-8 bytes. *)
Definition utf_8_sig_encode (s : str) : option bytes :=
  option_map (app BOM_UTF8) (utf_8_encode s).

(** The table of [cp1251] for bytes 0x80..0xFF; 0 marks the one byte the
    code page leaves undefined (0x98). *)
Definition cp1251_high : list N :=
  [1026; 1027; 8218; 1107; 8222; 8230; 8224; 8225;
   8364; 8240; 1033; 8249; 1034; 1036; 1035; 1039;
   1106; 8216; 8217; 8220; 8221; 8226; 8211; 8212;
   0; 8482; 1113; 8250; 1114; 1116; 1115; 1119;
   160; 1038; 1118; 1032; 164; 1168; 166; 167;
   1025; 169; 1028; 171; 172; 173; 174; 1031;
   176; 177; 1030; 1110; 1169; 181; 182; 183;
   1105; 8470; 1108; 187; 1112; 1029; 1109; 1111]%N.

Definition cp1251_decode_byte (b : N) : option codepoint :=
  if (b <? 128)%N then Some b
  else if (b <? 192)%N then
    match nth_error cp1251_high (N.to_nat (b - 128)) with
    | Some 0%N | None => None
    | Some c => Some c
    end
  else Some (b - 192 + 1040)%N.

Fixpoint cp1251_decode_N (bs : list N) : option str :=
  match bs with
  | [] => Some []
  | b :: r =>
      match cp1251_decode_byte b, cp1251_decode_N r with
      | Some c, Some s => Some (c :: s)
      | _, _ => None
      end
  end.

Definition cp1251_decode (data : bytes) : option str :=
  cp1251_decode_N (map Byte.to_N data).

End Codec.

(** A string literal of this file, read as the UTF-8 text it is. *)
Definition py (s : string) : str :=
  match Codec.utf_8_decode (list_byte_of_string s) with
  | Some t => t
  | None => []
  end.

(** [str(n)] for an [int]. *)
Definition str_of_int (n : Z) : str :=
  py (NilZero.string_of_int (Z.to_int n)).

Module PyStr.

(** [str.isspace] on one character (CPython's [Py_UNICODE_ISSPACE]). *)
Definition isspace (c : codepoint) : bool :=
  (Codec.in_range 9 c 13 || Codec.in_range 28 c 32 || (c =? 133) || (c =? 160)
   || (c =? 5760) || Codec.in_range 8192 c 8202 || (c =? 8232) || (c =? 8233)
   || (c =? 8239) || (c =? 8287) || (c =? 12288))%N.

(** The line boundaries of [str.splitlines]. *)
Definition islinebreak (c : codepoint) : bool :=
  (Codec.in_range 10 c 13 || Codec.in_range 28 c 30 || (c =? 133)
   || (c =? 8232) || (c =? 8233))%N.

Definition CR : codepoint := 13%N.
Definition LF : codepoint := 10%N.

Fixpoint lstrip (s : str) : str :=
  match s with
  | [] => []
  | c :: s' => if isspace c then lstrip s' else s
  end.

Definition rstrip (s : str) : str := rev (lstrip (rev s)).

(** [s.strip()]: the leading run of whitespace goes, then the trailing. *)
Definition strip (s : str) : str := rstrip (lstrip s).

Fixpoint startswith (s prefix : str) : bool :=
  match prefix, s with
  | [], _ => true
  | p :: prefix', c :: s' => (c =? p)%N && startswith s' prefix'
  | _ :: _, [] => false
  end.

(** Python's truth value of a [str]. *)
Definition truthy (s : str) : bool :=
  match s with [] => false | _ :: _ => true end.

(** [s.splitlines()]: [cur] holds, reversed, the characters of the line
    being read.  A break ends the line, CR LF counting as one break; the
    text after the last break is a line when it is not empty. *)
Fixpoint splitlines_from (cur : str) (s : str) : list str :=
  match s with
  | [] => match cur with [] => [] | _ :: _ => [rev cur] end
  | c :: s' =>
      if islinebreak c then
        if (c =? CR)%N then
          match s' with
          | c' :: s'' =>
              if (c' =? LF)%N then rev cur :: splitlines_from [] s''
              else rev cur :: splitlines_from [] s'
          | [] => rev cur :: splitlines_from [] s'
          end
        else rev cur :: splitlines_from [] s'
      else splitlines_from (c :: cur) s'
  end.

Definition splitlines (s : str) : list str := splitlines_from [] s.

(** [needle in s]. *)
Fixpoint contains (s needle : str) : bool :=
  startswith s needle ||
  match s with
  | [] => false
  | _ :: s' => contains s' needle
  end.

End PyStr.
Import PyStr.

(** ** [extract_queries_from_text] *)

(** The body of the [for line in ...] loop: one line, the list so far. *)
Definition extract_step (queries : list str) (line : str) : list str :=
  let line := strip line in
  if truthy line && negb (startswith line (py "#"))
  then queries ++ [line]
  else queries.

Definition extract_queries_from_text (text : str) : list str :=
  if negb (truthy text) then []
  else fold_left extract_step (splitlines (strip text)) [].

(** ** Query extraction, as the specification words it *)

(** A line is kept when it is not empty and does not begin with [#]. *)
Definition is_query (line : str) : bool :=
  truthy line && negb (startswith line (py "#")).

(** Split on line boundaries, trim every line, drop the empty lines and the
    comment lines, keep the order. *)
Definition extract_spec (text : str) : list str :=
  filter is_query (map strip (splitlines text)).

(** The queries a text yields once it is split from a line in progress. *)
Definition queries_from (cur s : str) : list str :=
  filter is_query (map strip (splitlines_from cur s)).


(** ** The [csv] writer (default dialect: comma, double quote, CR LF,
    minimal quoting) *)

Definition row := list str.

Module Csv.

Definition delimiter : codepoint := 44%N.
Definition quotechar : codepoint := 34%N.
Definition lineterminator : str := [CR; LF].

(** A character that forces the field into quotes. *)
Definition special (c : codepoint) : bool :=
  ((c =? delimiter) || (c =? quotechar) || (c =? CR) || (c =? LF))%N.

Definition escape (c : codepoint) : str :=
  if (c =? quotechar)%N then [quotechar; quotechar] else [c].

Definition field (f : str) : str :=
  if existsb special f
  then [quotechar] ++ flat_map escape f ++ [quotechar]
  else f.

Fixpoint join (fields : list str) : str :=
  match fields with
  | [] => []
  | [f] => f
  | f :: rest => f ++ [delimiter] ++ join rest
  end.

(** The text [writer.writerow(r)] appends.  The cells are the texts the
    writer makes of the values ([str(v)]); a lone empty cell is quoted. *)
Definition record (r : row) : str :=
  match r with
  | [[]] => [quotechar; quotechar] ++ lineterminator
  | _ => join (map field r) ++ lineterminator
  end.

End Csv.

(** ** Exceptions, events and the monad of the handlers *)

(** The subclasses of [Exception] the source tells apart, and the rest. *)
Inductive exn : Type :=
| TelegramBadRequest
| TelegramNetworkError
| UnicodeEncodeError
| AttributeError
| OtherException (name : str).

Inductive result (A : Type) : Type :=
| Return (a : A)
| Raise (e : exn).
Arguments Return {A} a.
Arguments Raise {A} e.

(** The two messages a handler talks to: the user's message and the status
    message the bot posted. *)
Inductive target : Type := Incoming | Status.

Inductive event : Type :=
| Reply (message : target) (text : str)
| Answer (text : str)
| SearchXmlriver (query : str)
| EditText (message : target) (text : str)
| Sleep (seconds : Q)
| GetFile (file_id : str)
| DownloadFile (file_path : str)
| AnswerDocument (data : bytes) (filename caption : str)
| Delete (message : target).

(** A computation over local variables [L]: it returns or raises, and in
    both cases leaves the locals and the trace as they were at that point. *)
Definition M (L A : Type) : Type := L -> list event -> result A * L * list event.

Definition ret {L A} (a : A) : M L A := fun l tr => (Return a, l, tr).

Definition bind {L A B} (m : M L A) (k : A -> M L B) : M L B :=
  fun l tr =>
    match m l tr with
    | (Return a, l', tr') => k a l' tr'
    | (Raise e, l', tr') => (Raise e, l', tr')
    end.

Definition lift {L A} (r : result A) : M L A := fun l tr => (r, l, tr).

(** An external call: the event is recorded, the collaborator answers. *)
Definition call {L A} (ev : event) (r : result A) : M L A :=
  fun l tr => (r, l, tr ++ [ev]).

Definition gets {L A} (f : L -> A) : M L A := fun l tr => (Return (f l), l, tr).

Definition modify {L} (f : L -> L) : M L unit := fun l tr => (Return tt, f l, tr).

(** [try: m  except <classes matching catches> as e: handler e]. *)
Definition try_except {L A} (m : M L A) (catches : exn -> bool)
    (handler : exn -> M L A) : M L A :=
  fun l tr =>
    match m l tr with
    | (Raise e, l', tr') =>
        if catches e then handler e l' tr' else (Raise e, l', tr')
    | done => done
    end.

Declare Scope py_scope.
Delimit Scope py_scope with py.
Notation "x <- m ;; k" := (bind m (fun x => k))
  (at level 61, m at next level, right associativity) : py_scope.
Notation "m ;; k" := (bind m (fun _ => k))
  (at level 61, right associativity) : py_scope.
Open Scope py_scope.

(** [except Exception]: every exception of the model. *)
Definition Exception (e : exn) : bool := true.

Definition isTelegramBadRequest (e : exn) : bool :=
  match e with TelegramBadRequest => true | _ => false end.

Definition isTelegramNetworkError (e : exn) : bool :=
  match e with TelegramNetworkError => true | _ => false end.

(** ** The collaborators *)

(** What the code calls and does not define.  [search_xmlriver], and
    [edit_text] on the status message, answer by the 1-based position of the
    query they are called for. *)
Class Collaborators (xml : Type) : Type := {
  (** [organic_ya.Organic()], the client [a] of the lookups *)
  Organic : result unit;
  (** [a.search_xmlriver(query)] for the query at position [i] *)
  search_xmlriver : Z -> str -> result xml;
  (** [xmltree.XmlTree.get_header(xml_data)] *)
  get_header : xml -> result row;
  (** [xmltree.XmlTree(xml_data, query).get_row()] *)
  get_row : xml -> str -> result row;
  (** [message.edit_text(text)] after the query at position [i] *)
  edit_text : Z -> str -> result unit;
  (** [status_message.edit_text(text)] before the report is sent *)
  edit_text_sending : str -> result unit;
  (** [bot.get_file(file_id)], giving [file_info.file_path] *)
  get_file : str -> result str;
  (** [bot.download_file(file_path, buffer)], giving the bytes read back *)
  download_file : str -> result bytes;
  (** [message.answer_document(document, caption)] *)
  answer_document : bytes -> str -> str -> result unit;
  (** [status_message.delete()] *)
  delete : result unit;
  (** [str(e)] *)
  str_of_exn : exn -> str;
  (** [f"{n * SLEEP_BETWEEN_REQUESTS / 60:.1f}"], a floating-point rendering *)
  format_minutes : Z -> str
}.

(** [message.reply(text)] on the user's message or on the status message,
    and [message.answer(text)], which posts the status message. *)
Record Channel : Type := {
  reply : target -> str -> result unit;
  answer : str -> result unit
}.

(** The channel on which every reply and every answer returns. *)
Definition reliable : Channel :=
  {| reply := fun _ _ => Return tt; answer := fun _ => Return tt |}.

(** ** Constants *)

Definition MAX_QUERIES : Z := 10000.
Definition MAX_FILE_SIZE : Z := 10 * 1024 * 1024.
Definition SLEEP_BETWEEN_REQUESTS : Q := (1 # 10)%Q.

(** [len(xs)] *)
Definition len {A} (xs : list A) : Z := Z.of_nat (List.length xs).

(** ** The texts the bot sends *)

Definition too_many_text (got : Z) : str :=
  py "❌ Слишком много запросов! Максимум " ++ str_of_int MAX_QUERIES
  ++ py ", получено " ++ str_of_int got.

Definition progress_text (i total_queries : Z) : str :=
  py "⏳ Обработано " ++ str_of_int i ++ py "/" ++ str_of_int total_queries
  ++ py " запросов...".

Definition nothing_processed_text : str :=
  py "❌ Не удалось обработать ни одного запроса".

Definition failure_text (described : str) : str :=
  py "❌ Произошла ошибка при обработке: " ++ described.

Definition file_too_large_text : str :=
  py "❌ Файл слишком большой! Максимум "
  ++ str_of_int (MAX_FILE_SIZE / (1024 * 1024)) ++ py "MB".

Definition not_text_file_text : str :=
  py "❌ Пожалуйста, отправьте текстовый файл (.txt)".

Definition undecodable_text : str :=
  py "❌ Не удалось прочитать файл. Проверьте кодировку.".

Definition read_error_text : str := py "❌ Ошибка при чтении файла".

Definition no_queries_text : str :=
  py "❌ Не найдено ни одного запроса!" ++ [LF; LF]
  ++ py "📝 Отправьте запросы в одном из форматов:" ++ [LF]
  ++ py "• Текст с запросами (каждый с новой строки)" ++ [LF]
  ++ py "• Текстовый файл .txt с запросами".

Definition starting_text (minutes : str) (n : Z) : str :=
  py "⏳ Начинаю обработку " ++ str_of_int n ++ py " запросов..." ++ [LF]
  ++ py "Это может занять " ++ minutes ++ py " минут".

Definition sending_text : str := py "📤 Отправляю результат...".

Definition report_filename (n : Z) : str :=
  py "search_results_" ++ str_of_int n ++ py "_queries.csv".

Definition report_caption (n : Z) : str :=
  py "✅ Готово! Обработано " ++ str_of_int n ++ py " запросов".

Definition send_network_error_text : str :=
  py "❌ Ошибка при отправке файла. Возможно, файл слишком большой или проблемы с сетью."
  ++ [LF] ++ py "Попробуйте разбить запросы на меньшие группы.".

Definition send_error_text : str := py "❌ Ошибка при отправке результата".

Definition unexpected_error_text : str := py "❌ Произошла неожиданная ошибка".

(** ** [process_queries] *)

(** The local variables of [process_queries] that the loop assigns.
    [writer] tells whether [csv.writer(output)] has been created ([None]
    before); what it writes goes to [output]. *)
Record locals : Type := {
  output : str;
  writer : bool;
  header_written : bool;
  processed : Z
}.

Definition initial : locals :=
  {| output := []; writer := false; header_written := false; processed := 0 |}.

Definition set_writer (l : locals) : locals :=
  {| output := output l; writer := true;
     header_written := header_written l; processed := processed l |}.

Definition set_header_written (l : locals) : locals :=
  {| output := output l; writer := writer l;
     header_written := true; processed := processed l |}.

Definition add_processed (l : locals) : locals :=
  {| output := output l; writer := writer l;
     header_written := header_written l; processed := processed l + 1 |}.

Definition write (text : str) (l : locals) : locals :=
  {| output := output l ++ text; writer := writer l;
     header_written := header_written l; processed := processed l |}.

(** [writer.writerow(r)]; on [None] the attribute lookup raises. *)
Definition writerow (r : row) : M locals unit :=
  w <- gets writer ;;
  if w then modify (write (Csv.record r)) else lift (Raise AttributeError).

Section Batch.

Context {xml : Type} `{C : Collaborators xml}.

(** The body of [for i, query in enumerate(queries, 1)].  Both [continue]
    statements end the body; the handler of the inner [try] takes every
    exception of the block, whatever its statement. *)
Definition for_body (total_queries : Z) (message : target)
    (i : Z) (query : str) : M locals unit :=
  if negb (truthy (strip query)) then ret tt
  else
    try_except
      (xml_data <- call (SearchXmlriver (strip query))
                        (search_xmlriver i (strip query)) ;;
       hw <- gets header_written ;;
       (if negb hw then
          header <- lift (get_header xml_data) ;;
          modify set_writer ;;
          writerow header ;;
          modify set_header_written
        else ret tt) ;;
       r <- lift (get_row xml_data (strip query)) ;;
       writerow r ;;
       modify add_processed ;;
       (if i mod 10 =? 0 then
          try_except
            (call (EditText message (progress_text i total_queries))
                  (edit_text i (progress_text i total_queries)))
            isTelegramBadRequest
            (fun _ => ret tt)
        else ret tt) ;;
       call (Sleep SLEEP_BETWEEN_REQUESTS) (Return tt))
      Exception
      (fun _ => ret tt).

Fixpoint for_queries (total_queries : Z) (message : target)
    (i : Z) (queries : list str) : M locals unit :=
  match queries with
  | [] => ret tt
  | query :: rest =>
      for_body total_queries message i query ;;
      for_queries total_queries message (i + 1) rest
  end.

(** The statements after the loop, inside the outer [try]. *)
Definition finish_on (ch : Channel) (message : target)
  : M locals (option bytes) :=
  n <- gets processed ;;
  if n =? 0 then
    call (Reply message nothing_processed_text)
         (reply ch message nothing_processed_text) ;;
    ret None
  else
    csv_content <- gets output ;;
    if negb (truthy csv_content) then ret None
    else
      match Codec.utf_8_sig_encode csv_content with
      | Some data => ret (Some data)
      | None => lift (Raise UnicodeEncodeError)
      end.

(** The outer [try] of [process_queries], from fresh locals.  What the
    reply of the handler raises leaves the function. *)
Definition batch_on (ch : Channel) (queries : list str) (message : target)
  : M locals (option bytes) :=
  try_except
    (lift Organic ;;
     for_queries (len queries) message 1 queries ;;
     finish_on ch message)
    Exception
    (fun e =>
       call (Reply message (failure_text (str_of_exn e)))
            (reply ch message (failure_text (str_of_exn e))) ;;
       ret None).

(** The body of [process_queries]: the check of the ceiling, whose reply
    stands outside the [try], then the outer [try]. *)
Definition process_queries_body (ch : Channel) (queries : list str)
    (message : target) : M locals (option bytes) :=
  if len queries >? MAX_QUERIES then
    call (Reply message (too_many_text (len queries)))
         (reply ch message (too_many_text (len queries))) ;;
    ret None
  else batch_on ch queries message.

(** [process_queries(queries, message)], run after the trace [tr]: the
    value returned, or the exception raised, and the trace it leaves. *)
Definition process_queries_on (ch : Channel) (queries : list str)
    (message : target) (tr : list event)
  : result (option bytes) * list event :=
  let '(r, _, tr') := process_queries_body ch queries message initial tr in
  (r, tr').

(** The same on the channel whose replies all return. *)
Definition finish : target -> M locals (option bytes) := finish_on reliable.

Definition batch : list str -> target -> M locals (option bytes) :=
  batch_on reliable.

Definition process_queries
  : list str -> target -> list event -> result (option bytes) * list event :=
  process_queries_on reliable.

(** The locals and the trace when the loop of [process_queries] ends. *)
Definition after_loop (queries : list str) (message : target)
    (tr : list event) : result unit * locals * list event :=
  for_queries (len queries) message 1 queries initial tr.

End Batch.

(** ** [extract_queries_from_file] and [handle_message] *)

Record Document : Type := {
  file_id : str;
  file_size : option Z;
  mime_type : option str
}.

Record Message : Type := {
  text : option str;
  document : option Document
}.

(** The four names of [encodings], in the order tried. *)
Definition encodings : list (bytes -> option str) :=
  [Codec.utf_8_decode; Codec.utf_8_sig_decode;
   Codec.cp1251_decode; Codec.cp1251_decode].

(** The [for encoding in encodings] loop: the first decoding that does not
    raise [UnicodeDecodeError]; [None] when all do. *)
Fixpoint decode_with (candidates : list (bytes -> option str)) (data : bytes)
  : option str :=
  match candidates with
  | [] => None
  | decode :: rest =>
      match decode data with
      | Some content => Some content
      | None => decode_with rest data
      end
  end.

(** [x in ['text/plain', 'application/octet-stream']] *)
Definition accepted_mime (m : option str) : bool :=
  match m with
  | Some t => if list_eq_dec N.eq_dec t (py "text/plain") then true
              else if list_eq_dec N.eq_dec t (py "application/octet-stream")
                   then true else false
  | None => false
  end.

(** [file_size and file_size > MAX_FILE_SIZE]: [None] and [0] are false. *)
Definition over_size (size : option Z) : bool :=
  match size with
  | Some n => negb (n =? 0) && (n >? MAX_FILE_SIZE)
  | None => false
  end.

Section Handler.

Context {xml : Type} `{C : Collaborators xml}.

Definition extract_queries_from_file_on (ch : Channel) (message : Message)
  : M unit (option (list str)) :=
  match document message with
  | None => ret None
  | Some doc =>
      if over_size (file_size doc) then
        call (Reply Incoming file_too_large_text)
             (reply ch Incoming file_too_large_text) ;;
        ret None
      else if negb (accepted_mime (mime_type doc)) then
        call (Reply Incoming not_text_file_text)
             (reply ch Incoming not_text_file_text) ;;
        ret None
      else
        try_except
          (file_path <- call (GetFile (file_id doc)) (get_file (file_id doc)) ;;
           data <- call (DownloadFile file_path) (download_file file_path) ;;
           match decode_with encodings data with
           | None =>
               call (Reply Incoming undecodable_text)
                    (reply ch Incoming undecodable_text) ;;
               ret None
           | Some content => ret (Some (extract_queries_from_text content))
           end)
          Exception
          (fun _ =>
             call (Reply Incoming read_error_text)
                  (reply ch Incoming read_error_text) ;;
             ret None)
  end.

(** [process_queries] as a step of the handler's monad. *)
Definition run_process_queries_on (ch : Channel) (queries : list str)
    (message : target) : M unit (option bytes) :=
  fun l tr =>
    let '(r, tr') := process_queries_on ch queries message tr in (r, l, tr').

(** From [status_message = await message.answer(...)] to the end of the
    inner [try].  The replies of its two handlers are guarded by the outer
    [try] of [handle_message] only. *)
Definition report_on (ch : Channel) (queries : list str) : M unit unit :=
  call (Answer (starting_text (format_minutes (len queries)) (len queries)))
       (answer ch (starting_text (format_minutes (len queries)) (len queries))) ;;
  csv_data <- run_process_queries_on ch queries Status ;;
  match csv_data with
  | None => ret tt
  | Some data =>
      try_except
        (call (EditText Status sending_text)
              (edit_text_sending sending_text) ;;
         call (AnswerDocument data (report_filename (len queries))
                              (report_caption (len queries)))
              (answer_document data (report_filename (len queries))
                               (report_caption (len queries))) ;;
         try_except (call (Delete Status) delete)
                    Exception (fun _ => ret tt))
        Exception
        (fun e =>
           if isTelegramNetworkError e
           then call (Reply Incoming send_network_error_text)
                     (reply ch Incoming send_network_error_text)
           else call (Reply Incoming send_error_text)
                     (reply ch Incoming send_error_text))
  end.

(** [message.text and not message.text.startswith('/')] *)
Definition is_plain_text (t : option str) : bool :=
  match t with
  | Some s => truthy s && negb (startswith s (py "/"))
  | None => false
  end.

(** From [if not queries] on. *)
Definition with_queries_on (ch : Channel) (queries : list str) : M unit unit :=
  match queries with
  | [] => call (Reply Incoming no_queries_text)
               (reply ch Incoming no_queries_text)
  | _ :: _ => report_on ch queries
  end.

Definition handle_message_on (ch : Channel) (message : Message)
  : M unit unit :=
  try_except
    (if is_plain_text (text message) then
       with_queries_on ch
         (extract_queries_from_text
            (match text message with Some s => s | None => [] end))
     else
       match document message with
       | Some _ =>
           queries <- extract_queries_from_file_on ch message ;;
           match queries with
           | None => ret tt
           | Some qs => with_queries_on ch qs
           end
       | None => with_queries_on ch []
       end)
    Exception
    (fun _ => call (Reply Incoming unexpected_error_text)
                   (reply ch Incoming unexpected_error_text)).

(** The same on the channel whose replies all return. *)
Definition extract_queries_from_file
  : Message -> M unit (option (list str)) :=
  extract_queries_from_file_on reliable.

Definition run_process_queries
  : list str -> target -> M unit (option bytes) :=
  run_process_queries_on reliable.

Definition report : list str -> M unit unit := report_on reliable.

Definition with_queries : list str -> M unit unit := with_queries_on reliable.

Definition handle_message : Message -> M unit unit :=
  handle_message_on reliable.

(** The queries a message submits: those of its text, or those read from
    its document. *)
Definition submitted (message : Message) (queries : list str) : Prop :=
  (is_plain_text (text message) = true /\
   exists s, text message = Some s /\ queries = extract_queries_from_text s)
  \/
  (is_plain_text (text message) = false /\
   exists tr,
     extract_queries_from_file message tt []
     = (Return (Some queries), tt, tr)).

End Handler.

(** ** Collaborators given by a script

    For the runs on concrete inputs: the record a lookup returns is the pair
    of what the header derivation and the row derivation make of it. *)

Definition scripted_xml : Type := (result row * result row)%type.

Definition Scripted (lookup : Z -> str -> result scripted_xml)
    (edit : Z -> result unit) : Collaborators scripted_xml :=
  {| Organic := Return tt;
     search_xmlriver := lookup;
     get_header := fun x => fst x;
     get_row := fun x _ => snd x;
     edit_text := fun i _ => edit i;
     edit_text_sending := fun _ => Return tt;
     get_file := fun id => Return id;
     download_file := fun _ => Return [];
     answer_document := fun _ _ _ => Return tt;
     delete := Return tt;
     str_of_exn := fun _ => [];
     format_minutes := fun _ => [] |}.

(** ** What the collaborators make of a batch

    Read off the collaborators alone, without running the loop: these state
    what a batch should write. *)

Section Outcomes.

Context {xml : Type} `{C : Collaborators xml}.

(** The record the lookup at position [i] returns, when it returns one.  A
    query that is blank after trimming is not looked up. *)
Definition looked_up (i : Z) (query : str) : option xml :=
  if truthy (strip query) then
    match search_xmlriver i (strip query) with
    | Return x => Some x
    | Raise _ => None
    end
  else None.

(** The header of that record, when its derivation returns. *)
Definition header_of (i : Z) (query : str) : option row :=
  match looked_up i query with
  | Some x => match get_header x with Return h => Some h | Raise _ => None end
  | None => None
  end.

(** The row of that record, when its derivation returns. *)
Definition row_of (i : Z) (query : str) : option row :=
  match looked_up i query with
  | Some x =>
      match get_row x (strip query) with Return r => Some r | Raise _ => None end
  | None => None
  end.

(** The Result Row Source succeeds for a query, [hw] telling whether a
    header was written before: the lookup returns a record and the row is
    derived from it; the header is derived from it too when none was
    written, the only time the code asks for one. *)
Definition succeeds (hw : bool) (i : Z) (query : str) : Prop :=
  (exists r, row_of i query = Some r) /\
  (hw = false -> exists h, header_of i query = Some h).

(** It raises for a query: the lookup, the derivation of the row or, when
    no header was written before, the derivation of the header. *)
Definition raises (hw : bool) (i : Z) (query : str) : Prop :=
  truthy (strip query) = true /\
  (row_of i query = None \/ (hw = false /\ header_of i query = None)).

Definition opt_list {A} (o : option A) : list A :=
  match o with Some a => [a] | None => [] end.

Definition is_some {A} (o : option A) : bool :=
  match o with Some _ => true | None => false end.

(** The rows of the queries from position [i] on whose row is derived. *)
Fixpoint rows_of (i : Z) (queries : list str) : list row :=
  match queries with
  | [] => []
  | q :: rest => opt_list (row_of i q) ++ rows_of (i + 1) rest
  end.

(** The header of the first query from position [i] on that has one. *)
Fixpoint first_header (i : Z) (queries : list str) : option row :=
  match queries with
  | [] => None
  | q :: rest =>
      match header_of i q with
      | Some h => Some h
      | None => first_header (i + 1) rest
      end
  end.

(** The rows a batch writes from position [i] on, [hw] telling whether a
    header was written before: no row goes out before a header does. *)
Fixpoint written_rows (hw : bool) (i : Z) (queries : list str) : list row :=
  match queries with
  | [] => []
  | q :: rest =>
      let hw' := hw || is_some (header_of i q) in
      (if hw' then opt_list (row_of i q) else [])
      ++ written_rows hw' (i + 1) rest
  end.

(** The source succeeds for every query of the list, the first of which
    stands at position [i]: after the first a header is written. *)
Fixpoint all_succeed (hw : bool) (i : Z) (queries : list str) : Prop :=
  match queries with
  | [] => True
  | q :: rest => succeeds hw i q /\ all_succeed true (i + 1) rest
  end.

(** [bool(xs)] of a list. *)
Definition nonempty {A} (xs : list A) : bool :=
  match xs with [] => false | _ :: _ => true end.

(** No query of the list yields a header. *)
Fixpoint no_header (i : Z) (queries : list str) : Prop :=
  match queries with
  | [] => True
  | q :: rest => header_of i q = None /\ no_header (i + 1) rest
  end.

(** The header line a batch writes from position [i] on. *)
Definition header_text (hw : bool) (i : Z) (queries : list str) : str :=
  if hw then []
  else match first_header i queries with
       | Some h => Csv.record h
       | None => []
       end.

End Outcomes.

(** The invariant of the loop: the writer exists exactly when the header has
    been written. *)
Definition writer_ready (l : locals) : Prop := writer l = header_written l.

(** ** Reading a trace *)

(** The queries sent to the lookup, in order. *)
Definition searches (tr : list event) : list str :=
  flat_map (fun ev => match ev with SearchXmlriver q => [q] | _ => [] end) tr.

(** The number of pacing delays. *)
Definition sleeps (tr : list event) : nat :=
  List.length (filter (fun ev => match ev with Sleep _ => true | _ => false end) tr).

(** The texts of the status edits, in order. *)
Definition edits (tr : list event) : list str :=
  flat_map (fun ev => match ev with EditText _ t => [t] | _ => [] end) tr.

(** The documents sent: file name and payload. *)
Definition documents (tr : list event) : list (str * bytes) :=
  flat_map (fun ev => match ev with
                      | AnswerDocument d f _ => [(f, d)]
                      | _ => []
                      end) tr.

Definition nonblank (query : str) : bool := truthy (strip query).

(** The events a batch can add: lookups, status edits, delays, replies. *)
Definition batch_event (ev : event) : bool :=
  match ev with
  | SearchXmlriver _ | EditText _ _ | Sleep _ | Reply _ _ => true
  | _ => false
  end.

(** ** Scripts for the runs on concrete inputs *)

Definition timeout : exn := OtherException (py "TimeoutError").

(** A record whose header and row are both derived. *)
Definition record_ok (i : Z) (q : str) : result scripted_xml :=
  Return (Return [py "query"; py "position"], Return [q; str_of_int i]).

(** Every lookup returns, except the one at position [k], which raises. *)
Definition fails_at (k : Z) : Collaborators scripted_xml :=
  Scripted (fun i q => if i =? k then Raise timeout else record_ok i q)
           (fun _ => Return tt).

(** Every lookup raises. *)
Definition always_fails : Collaborators scripted_xml :=
  Scripted (fun _ _ => Raise timeout) (fun _ => Return tt).

(** Three records that disagree: the first gives no header, the second a
    header and no row, the third a header of its own and a row. *)
Definition uneven : Collaborators scripted_xml :=
  Scripted
    (fun i q =>
       if i =? 1 then Return (Raise timeout, Return [q; py "1"])
       else if i =? 2 then Return (Return [py "query"; py "position"], Raise timeout)
       else Return (Return [py "query"; py "url"], Return [q; py "example.org"]))
    (fun _ => Return tt).

(** The first record gives a row and no header, the second lookup raises,
    the third record gives a header and a row. *)
Definition headless_first : Collaborators scripted_xml :=
  Scripted
    (fun i q =>
       if i =? 1 then Return (Raise timeout, Return [q; py "1"])
       else if i =? 2 then Raise timeout
       else record_ok i q)
    (fun _ => Return tt).

(** The first record gives a header and a row, the second lookup raises,
    the third record gives a row and no header. *)
Definition headless_third : Collaborators scripted_xml :=
  Scripted
    (fun i q =>
       if i =? 2 then Raise timeout
       else if i =? 3 then Return (Raise timeout, Return [q; py "3"])
       else record_ok i q)
    (fun _ => Return tt).

(** The network drops the nothing-processed reply and no other. *)
Definition nothing_processed_lost : Channel :=
  {| reply := fun _ t =>
       if list_eq_dec N.eq_dec t nothing_processed_text
       then Raise TelegramNetworkError else Return tt;
     answer := fun _ => Return tt |}.

Definition three_queries : list str := [py "a"; py "b"; py "c"].

Definition ten_queries : list str := repeat (py "q") 10.

Definition oversized_batch : list str := repeat (py "q") (N.to_nat 10001).

(** The text of a message with the three queries, one per line. *)
Definition three_lines : Message :=
  {| text := Some (py "a" ++ [LF] ++ py "b" ++ [LF] ++ py "c");
     document := None |}.

(** A document that declares no size and is not a text file. *)
Definition unsized_image : Message :=
  {| text := None;
     document := Some {| file_id := py "f1"; file_size := None;
                         mime_type := Some (py "image/png") |} |}.

Definition nine_queries : list str := repeat (py "q") 9.

(** Ten queries that all succeed: the state after nine turns, and after the
    tenth. *)
Definition after_nine : result unit * locals * list event :=
  for_queries (C := fails_at 0) 10 Status 1 nine_queries initial [].

Definition after_tenth : result unit * locals * list event :=
  for_body (C := fails_at 0) 10 Status 10 (py "q")
           (snd (fst after_nine)) (snd after_nine).

(** Ten queries, the first of which fails: the state after nine turns, and
    after the tenth. *)
Definition after_nine_one_failed : result unit * locals * list event :=
  for_queries (C := fails_at 1) 10 Status 1 nine_queries initial [].

Definition after_tenth_one_failed : result unit * locals * list event :=
  for_body (C := fails_at 1) 10 Status 10 (py "q")
           (snd (fst after_nine_one_failed)) (snd after_nine_one_failed).

(** The batch of three queries whose second lookup raises. *)
Definition three_report : result (option bytes) * list event :=
  process_queries (C := fails_at 2) three_queries Status [].

Definition payload_of (r : result (option bytes) * list event) : bytes :=
  match fst r with
  | Return (Some data) => data
  | _ => []
  end.

(** Collaborators whose download gives the bytes [data]; every lookup
    returns. *)
Definition serving (data : bytes) : Collaborators scripted_xml :=
  {| Organic := Return tt;
     search_xmlriver := record_ok;
     get_header := fun x => fst x;
     get_row := fun x _ => snd x;
     edit_text := fun _ _ => Return tt;
     edit_text_sending := fun _ => Return tt;
     get_file := fun id => Return (py "documents/" ++ id);
     download_file := fun _ => Return data;
     answer_document := fun _ _ _ => Return tt;
     delete := Return tt;
     str_of_exn := fun _ => [];
     format_minutes := fun _ => [] |}.

(** A text file of two lines that declares the size 0. *)
Definition two_line_file : bytes :=
  list_byte_of_string "foo" ++ [x0a] ++ list_byte_of_string "bar".

Definition zero_sized_text : Document :=
  {| file_id := py "f2"; file_size := Some 0;
     mime_type := Some (py "text/plain") |}.

Definition zero_sized_upload : Message :=
  {| text := None; document := Some zero_sized_text |}.

(** The handler on the message of three lines, the second lookup raising. *)
Definition three_lines_run : result unit * unit * list event :=
  handle_message (C := fails_at 2) three_lines tt [].

(** The extraction on the upload of declared size 0. *)
Definition zero_sized_run : result (option (list str)) * unit * list event :=
  extract_queries_from_file (C := serving two_line_file) zero_sized_upload tt [].

(** ** Further notions for the properties of the code *)

(** The head of a string is no blank. *)
Definition tight (s : str) : Prop :=
  match s with [] => True | c :: _ => isspace c = false end.

(** The string holds no line boundary. *)
Definition unbroken (s : str) : bool :=
  forallb (fun c => negb (islinebreak c)) s.

(** A query as the extraction leaves it: not empty, trimmed, no comment
    mark in front, on one line. *)
Definition clean_query (q : str) : Prop :=
  truthy q = true /\ strip q = q /\ startswith q (py "#") = false /\
  unbroken q = true.

(** The lines joined by line feeds, as a user types them in one message. *)
Fixpoint unlines (lines : list str) : str :=
  match lines with
  | [] => []
  | [l] => l
  | l :: rest => l ++ LF :: unlines rest
  end.

(** The status edit never raises anything but [TelegramBadRequest]. *)
Definition edit_harmless {xml : Type} `{C : Collaborators xml} : Prop :=
  forall i t,
    match edit_text i t with
    | Return _ => True
    | Raise e => isTelegramBadRequest e = true
    end.

(** Two sets of collaborators with the same Result Row Source. *)
Definition same_source {xml : Type} (C1 C2 : Collaborators xml) : Prop :=
  (forall i q, search_xmlriver (Collaborators := C1) i q
               = search_xmlriver (Collaborators := C2) i q) /\
  (forall x, get_header (Collaborators := C1) x
             = get_header (Collaborators := C2) x) /\
  (forall x q, get_row (Collaborators := C1) x q
               = get_row (Collaborators := C2) x q).

(** The locals with which the loop of [process_queries] ends. *)
Definition locals_after {xml : Type} `{C : Collaborators xml}
    (queries : list str) (message : target) (tr : list event) : locals :=
  snd (fst (after_loop queries message tr)).

(** ** Further scripts *)

(** Every lookup returns; every status edit raises [e]. *)
Definition edits_raise (e : exn) : Collaborators scripted_xml :=
  Scripted record_ok (fun _ => Raise e).

(** The client of the lookups cannot be made. *)
Definition no_client : Collaborators scripted_xml :=
  {| Organic := Raise timeout;
     search_xmlriver := record_ok;
     get_header := fun x => fst x;
     get_row := fun x _ => snd x;
     edit_text := fun _ _ => Return tt;
     edit_text_sending := fun _ => Return tt;
     get_file := fun id => Return id;
     download_file := fun _ => Return [];
     answer_document := fun _ _ _ => Return tt;
     delete := Return tt;
     str_of_exn := fun _ => py "timed out";
     format_minutes := fun _ => [] |}.

(** The loop on the three queries whose second lookup raises. *)
Definition three_loop : result unit * locals * list event :=
  after_loop (C := fails_at 2) three_queries Status [].

(** Every lookup and every status edit returns. *)
Definition all_fine : Collaborators scripted_xml :=
  Scripted record_ok (fun _ => Return tt).

(** Every record holds a lone surrogate in its row. *)
Definition surrogate_cell : Collaborators scripted_xml :=
  Scripted (fun _ _ => Return (Return [py "query"], Return [[55296%N]]))
           (fun _ => Return tt).

(** The texts of the replies, in order. *)
Definition replies (tr : list event) : list str :=
  flat_map (fun ev => match ev with Reply _ t => [t] | _ => [] end) tr.

(** The texts with which [extract_queries_from_file] turns a document
    away. *)
Definition refusal_texts : list str :=
  [file_too_large_text; not_text_file_text; undecodable_text;
   read_error_text].

(** U+FEFF, what the byte-order marker decodes to. *)
Definition BOM_CHAR : codepoint := 65279%N.

(** The reply of the handler to an exception raised while sending. *)
Definition send_reply (e : exn) : str :=
  if isTelegramNetworkError e then send_network_error_text else send_error_text.

(** A message shown to the user: a reply or an answer. *)
Definition user_message (ev : event) : bool :=
  match ev with Reply _ _ | Answer _ => true | _ => false end.

Definition is_delete (ev : event) : bool :=
  match ev with Delete _ => true | _ => false end.

(** What the handler does once [process_queries] has returned [csv_data]:
    nothing on [None]; else the status edit, the document, and the removal
    of the status message or the reply to a failure. *)
Definition sending_events {xml : Type} `{C : Collaborators xml}
    (n : Z) (csv_data : option bytes) : list event :=
  match csv_data with
  | None => []
  | Some data =>
      EditText Status sending_text ::
      match edit_text_sending sending_text with
      | Raise e => [Reply Incoming (send_reply e)]
      | Return _ =>
          AnswerDocument data (report_filename n) (report_caption n) ::
          match answer_document data (report_filename n) (report_caption n) with
          | Raise e => [Reply Incoming (send_reply e)]
          | Return _ => [Delete Status]
          end
      end
  end.


(** What the events of a step of the handler show: a message to the user,
    at most one document, no removal of the status message unless a
    document was sent and the send returned. *)
Definition well_reported {xml : Type} `{C : Collaborators xml}
    (evs : list event) : Prop :=
  existsb user_message evs = true /\
  (List.length (documents evs) <= 1)%nat /\
  (existsb is_delete evs = true ->
   exists data filename caption,
     In (AnswerDocument data filename caption) evs /\
     answer_document data filename caption = Return tt).


(** The word "При" in windows-1251: no valid UTF-8. *)
Definition legacy_bytes : bytes := [xcf; xf0; xe8].

(** An image that declares one byte more than the ceiling. *)
Definition oversized_image : Document :=
  {| file_id := py "f3"; file_size := Some 10485761;
     mime_type := Some (py "image/png") |}.

Definition oversized_upload : Message :=
  {| text := None; document := Some oversized_image |}.





(** The status message can be neither edited before the send nor removed
    after it. *)
Definition status_frozen (edit : result unit) : Collaborators scripted_xml :=
  {| Organic := Return tt;
     search_xmlriver := record_ok;
     get_header := fun x => fst x;
     get_row := fun x _ => snd x;
     edit_text := fun _ _ => Return tt;
     edit_text_sending := fun _ => edit;
     get_file := fun id => Return id;
     download_file := fun _ => Return [];
     answer_document := fun _ _ _ => Return tt;
     delete := Raise TelegramBadRequest;
     str_of_exn := fun _ => [];
     format_minutes := fun _ => [] |}.

(** [process_queries] on the three queries, as the handler calls it under
    [status_frozen]. *)
Definition frozen_report (edit : result unit)
  : result (option bytes) * list event :=
  process_queries (C := status_frozen edit) three_queries Status
    ([] ++ [Answer (starting_text
                      (format_minutes (Collaborators := status_frozen edit)
                                      (len three_queries))
                      (len three_queries))]).

(** No reply gets through: the network is down for them. *)
Definition replies_lost : Channel :=
  {| reply := fun _ _ => Raise TelegramNetworkError;
     answer := fun _ => Return tt |}.

(** The byte 98: no UTF-8, and unassigned in windows-1251. *)
Definition undecodable_bytes : bytes := [x98].

(** A text document without declared size. *)
Definition unsized_text : Document :=
  {| file_id := py "f4"; file_size := None;
     mime_type := Some (py "text/plain") |}.

Definition unsized_upload : Message :=
  {| text := None; document := Some unsized_text |}.
(** * Properties of the extraction *)

Section StripFacts.

Lemma lstrip_app (x y : str) :
  lstrip (x ++ y) = if forallb isspace x then lstrip y else lstrip x ++ y.
Proof.
  induction x as [|c x IH]; simpl; [reflexivity|].
  destruct (isspace c); simpl; [exact IH | reflexivity].
Qed.

Lemma lstrip_spaces (ws : str) : forallb isspace ws = true -> lstrip ws = [].
Proof.
  intros H. rewrite <- (app_nil_r ws), lstrip_app, H. reflexivity.
Qed.

Lemma lstrip_split (t : str) :
  exists ws, forallb isspace ws = true /\ t = ws ++ lstrip t.
Proof.
  induction t as [|c t [ws [Hws Ht]]]; simpl.
  - exists []. split; reflexivity.
  - destruct (isspace c) eqn:Hc.
    + exists (c :: ws). simpl. rewrite Hc, Hws. split; [reflexivity|].
      f_equal. exact Ht.
    + exists []. split; reflexivity.
Qed.

Lemma rstrip_split (s : str) :
  exists ws, forallb isspace ws = true /\ s = rstrip s ++ ws.
Proof.
  destruct (lstrip_split (rev s)) as [ws [Hws Hs]].
  exists (rev ws). split.
  - rewrite forallb_forall in *. intros c Hc. apply Hws, in_rev, Hc.
  - unfold rstrip. rewrite <- rev_app_distr, <- Hs, rev_involutive.
    reflexivity.
Qed.

Lemma strip_cons_space (w : codepoint) (x : str) :
  isspace w = true -> strip (w :: x) = strip x.
Proof. intros H. unfold strip. simpl. rewrite H. reflexivity. Qed.

Lemma strip_snoc_space (w : codepoint) (x : str) :
  isspace w = true -> strip (x ++ [w]) = strip x.
Proof.
  intros H. unfold strip, rstrip. rewrite lstrip_app.
  destruct (forallb isspace x) eqn:Hx.
  - simpl. rewrite H, (lstrip_spaces _ Hx). reflexivity.
  - rewrite rev_app_distr. simpl. rewrite H. reflexivity.
Qed.

Lemma strip_nil : strip [] = [].
Proof. reflexivity. Qed.

Lemma strip_space (w : codepoint) : isspace w = true -> strip [w] = [].
Proof. intros H. rewrite strip_cons_space by exact H. reflexivity. Qed.

Lemma linebreak_isspace (c : codepoint) :
  islinebreak c = true -> isspace c = true.
Proof.
  unfold islinebreak, isspace, Codec.in_range. intros H.
  repeat rewrite orb_true_iff in *. repeat rewrite andb_true_iff in *.
  repeat rewrite N.leb_le in *. repeat rewrite N.eqb_eq in *.
  lia.
Qed.

End StripFacts.

Section SplitFacts.

Lemma is_query_nil : is_query [] = false.
Proof. reflexivity. Qed.

Lemma queries_from_nil (cur : str) :
  queries_from cur [] = filter is_query [strip (rev cur)].
Proof. destruct cur; reflexivity. Qed.

(** A blank in front of the line in progress changes no query. *)
Lemma queries_from_lead (w : codepoint) (s cur : str) :
  isspace w = true -> queries_from (cur ++ [w]) s = queries_from cur s.
Proof.
  intros Hw. revert cur.
  assert (Hrev : forall cur, strip (rev (cur ++ [w])) = strip (rev cur)).
  { intros cur. rewrite rev_app_distr. simpl. apply strip_cons_space, Hw. }
  induction s as [|c s IH]; intros cur.
  - rewrite !queries_from_nil. simpl. rewrite Hrev. reflexivity.
  - unfold queries_from in *. simpl.
    destruct (islinebreak c).
    + destruct (c =? CR)%N; [destruct s as [|c' s']; [|destruct (c' =? LF)%N]|];
        simpl; rewrite Hrev; reflexivity.
    + apply (IH (c :: cur)).
Qed.

Lemma queries_from_break (c : codepoint) (s cur : str) :
  islinebreak c = true ->
  queries_from cur (c :: s)
  = filter is_query [strip (rev cur)] ++
    queries_from [] (if (c =? CR)%N
                     then match s with
                          | c' :: s' => if (c' =? LF)%N then s' else s
                          | [] => s
                          end
                     else s).
Proof.
  intros Hc. unfold queries_from. simpl. rewrite Hc.
  destruct (c =? CR)%N; [destruct s as [|c' s']; [|destruct (c' =? LF)%N]|];
    simpl; destruct (is_query (strip (rev cur))); reflexivity.
Qed.

(** A leading blank of the text changes no query. *)
Lemma queries_from_cons_space (w : codepoint) (s : str) :
  isspace w = true -> queries_from [] (w :: s) = queries_from [] s.
Proof.
  intros Hw. destruct (islinebreak w) eqn:Hb.
  - rewrite queries_from_break by exact Hb. simpl.
    destruct (w =? CR)%N; [|reflexivity].
    destruct s as [|c' s']; [reflexivity|].
    destruct (c' =? LF)%N eqn:Hlf; [|reflexivity].
    apply N.eqb_eq in Hlf. subst c'.
    rewrite (@queries_from_break LF s' []) by reflexivity. reflexivity.
  - unfold queries_from at 1. simpl. rewrite Hb.
    apply (@queries_from_lead w s [] Hw).
Qed.

Lemma queries_from_lstrip (s : str) :
  queries_from [] (lstrip s) = queries_from [] s.
Proof.
  induction s as [|c s IH]; simpl; [reflexivity|].
  destruct (isspace c) eqn:Hc; [|reflexivity].
  rewrite queries_from_cons_space by exact Hc. exact IH.
Qed.

(** A trailing blank of the text changes no query. *)
Lemma queries_from_snoc_space (w : codepoint) (s cur : str) :
  isspace w = true -> queries_from cur (s ++ [w]) = queries_from cur s.
Proof.
  intros Hw.
  assert (Hbase : forall cur, queries_from cur [w] = queries_from cur []).
  { intros cur'. rewrite queries_from_nil. destruct (islinebreak w) eqn:Hb.
    - rewrite queries_from_break by exact Hb.
      destruct (w =? CR)%N; rewrite app_nil_r; reflexivity.
    - unfold queries_from. simpl. rewrite Hb. simpl.
      rewrite strip_snoc_space by exact Hw. reflexivity. }
  revert cur. induction s as [|c s IH]; intros cur; [apply Hbase|].
  simpl. destruct (islinebreak c) eqn:Hb.
  - rewrite !queries_from_break by exact Hb. f_equal.
    destruct (c =? CR)%N; [|apply IH].
    destruct s as [|c' s']; simpl.
    + destruct (w =? LF)%N; [reflexivity | apply Hbase].
    + destruct (N.eqb_spec c' LF) as [->|Hne]; [|apply (IH [])].
      specialize (IH []). simpl app in IH.
      rewrite !(@queries_from_break LF) in IH by reflexivity.
      simpl in IH. exact IH.
  - unfold queries_from in *. simpl. rewrite Hb. apply IH.
Qed.

Lemma queries_from_app_spaces (ws s : str) :
  forallb isspace ws = true -> queries_from [] (s ++ ws) = queries_from [] s.
Proof.
  revert s. induction ws as [|w ws IH]; intros s H.
  - rewrite app_nil_r. reflexivity.
  - simpl in H. apply andb_true_iff in H as [Hw Hws].
    change (w :: ws) with ([w] ++ ws). rewrite app_assoc, IH by exact Hws.
    apply queries_from_snoc_space, Hw.
Qed.

Lemma queries_from_strip (s : str) :
  queries_from [] (strip s) = queries_from [] s.
Proof.
  unfold strip. destruct (rstrip_split (lstrip s)) as [ws [Hws Hs]].
  transitivity (queries_from [] (lstrip s)); [|apply queries_from_lstrip].
  rewrite <- (@queries_from_app_spaces ws (rstrip (lstrip s)) Hws), <- Hs.
  reflexivity.
Qed.

Lemma fold_extract_step (lines : list str) (acc : list str) :
  fold_left extract_step lines acc
  = acc ++ filter is_query (map strip lines).
Proof.
  revert acc. induction lines as [|l lines IH]; intros acc; simpl.
  - rewrite app_nil_r. reflexivity.
  - rewrite IH. unfold extract_step. fold (is_query (strip l)).
    destruct (is_query (strip l)); [rewrite <- app_assoc|]; reflexivity.
Qed.

End SplitFacts.

(** C8. [extract_queries_from_text] splits the text on line boundaries,
    trims each line, drops the lines that are then empty and those that
    begin with [#], and returns the rest in input order; the empty text
    gives no query.  The function is total: no input raises. *)
Theorem extract_queries_from_text_spec (text : str) :
  extract_queries_from_text text = extract_spec text /\
  extract_queries_from_text [] = [].
Proof.
  split; [|reflexivity].
  unfold extract_queries_from_text, extract_spec.
  destruct text as [|c text]; [reflexivity|].
  cbn [truthy negb]. rewrite fold_extract_step. simpl app.
  apply (queries_from_strip (c :: text)).
Qed.

(** The scenario of the specification: two queries around a comment and a
    blank line. *)
Example extract_scenario :
  extract_queries_from_text
    (py "foo" ++ [LF] ++ py "# comment" ++ [LF; LF] ++ py "bar")
  = [py "foo"; py "bar"].
Proof. vm_compute. reflexivity. Qed.

(** * Properties of the batch loop *)

(** The texts stay folded while the runs are computed. *)
Arguments py : simpl never.
Arguments str_of_int : simpl never.
Arguments progress_text : simpl never.
Arguments too_many_text : simpl never.
Arguments failure_text : simpl never.
Arguments starting_text : simpl never.
Arguments report_filename : simpl never.
Arguments report_caption : simpl never.
Arguments Csv.record : simpl never.

Section BatchFacts.

Context {xml : Type} `{C : Collaborators xml}.

(** [process_queries] when every reply returns: over the ceiling the reply
    is the only event. *)
Lemma process_queries_eq (queries : list str) (m : target) (tr : list event) :
  process_queries queries m tr
  = if len queries >? MAX_QUERIES then
      (Return None, tr ++ [Reply m (too_many_text (len queries))])
    else
      let '(r, _, tr') := batch queries m initial tr in (r, tr').
Proof.
  unfold process_queries, process_queries_on, process_queries_body.
  destruct (len queries >? MAX_QUERIES); reflexivity.
Qed.

Lemma searches_app (a b : list event) :
  searches (a ++ b) = searches a ++ searches b.
Proof. apply flat_map_app. Qed.

Ltac unfold_body :=
  unfold for_body, try_except, bind, call, lift, gets, modify, ret, writerow,
    Exception.

(** Closes a case of the body once the run has been computed. *)
Ltac close_case :=
  do 2 eexists; split; [reflexivity|];
  cbn; rewrite ?searches_app; cbn;
  rewrite ?app_nil_r, <- ?app_assoc, ?Z.add_0_r, ?orb_false_r;
  repeat split; try reflexivity.

(** One turn of the loop, in terms of what the collaborators make of the
    query. *)
Lemma for_body_run (T : Z) (m : target) (i : Z) (q : str)
    (l : locals) (tr : list event) :
  writer_ready l ->
  exists l' tr',
    for_body T m i q l tr = (Return tt, l', tr') /\
    writer_ready l' /\
    header_written l' = header_written l || is_some (header_of i q) /\
    output l' = output l ++ header_text (header_written l) i [q]
                ++ flat_map Csv.record (written_rows (header_written l) i [q]) /\
    processed l' = processed l + len (written_rows (header_written l) i [q]) /\
    searches tr' = searches tr ++ map strip (filter nonblank [q]).
Proof.
  destruct l as [out w hw n]. unfold writer_ready. cbn [writer header_written].
  intros ->. unfold header_text, len.
  cbn [written_rows first_header filter map]. unfold nonblank.
  unfold header_of, row_of, looked_up. unfold_body.
  destruct (truthy (strip q)); cbn; [|destruct hw; close_case].
  destruct (search_xmlriver i (strip q)) as [x|e]; cbn;
    [|destruct hw; close_case].
  destruct hw; cbn.
  - destruct (get_row x (strip q)) as [r|e]; cbn; [|close_case].
    destruct (i mod 10 =? 0); cbn;
      [destruct (edit_text i (progress_text i T)) as [[]|[]]; cbn|];
      close_case.
  - destruct (get_header x) as [h|e]; cbn; [|close_case].
    destruct (get_row x (strip q)) as [r|e]; cbn; [|close_case].
    destruct (i mod 10 =? 0); cbn;
      [destruct (edit_text i (progress_text i T)) as [[]|[]]; cbn|];
      close_case.
Qed.

Lemma len_cons {A} (x : A) (xs : list A) : len (x :: xs) = 1 + len xs.
Proof. unfold len. cbn [List.length]. lia. Qed.

Lemma len_app {A} (xs ys : list A) : len (xs ++ ys) = len xs + len ys.
Proof. unfold len. rewrite length_app. lia. Qed.

Lemma len_nil {A} : len (@nil A) = 0.
Proof. reflexivity. Qed.

(** What one turn writes and what the rest writes make what the whole
    writes: a header line comes before every row. *)
Lemma written_cons (hw : bool) (i : Z) (q : str) (rest : list str) :
  let hw' := hw || is_some (header_of i q) in
  (header_text hw i [q] ++ flat_map Csv.record (written_rows hw i [q]))
  ++ header_text hw' (i + 1) rest
  ++ flat_map Csv.record (written_rows hw' (i + 1) rest)
  = header_text hw i (q :: rest)
    ++ flat_map Csv.record (written_rows hw i (q :: rest)).
Proof.
  unfold header_text. cbn [written_rows first_header].
  rewrite !app_nil_r, flat_map_app.
  destruct hw; cbn [orb]; [reflexivity|].
  destruct (header_of i q) as [h|]; cbn [is_some].
  - rewrite <- app_assoc. reflexivity.
  - reflexivity.
Qed.

Lemma written_rows_cons_len (hw : bool) (i : Z) (q : str) (rest : list str) :
  len (written_rows hw i (q :: rest))
  = len (written_rows hw i [q])
    + len (written_rows (hw || is_some (header_of i q)) (i + 1) rest).
Proof. cbn [written_rows]. rewrite !len_app, len_nil. lia. Qed.

Lemma first_header_cons (hw : bool) (i : Z) (q : str) (rest : list str) :
  hw || is_some (first_header i (q :: rest))
  = (hw || is_some (header_of i q)) || is_some (first_header (i + 1) rest).
Proof.
  cbn [first_header]. destruct hw, (header_of i q); reflexivity.
Qed.

(** The whole loop: it ends, raises nothing, looks every non-blank query
    up once and in order, and writes what the collaborators' answers
    call for. *)
Lemma for_queries_run (T : Z) (m : target) (queries : list str) :
  forall (i : Z) (l : locals) (tr : list event),
  writer_ready l ->
  exists l' tr',
    for_queries T m i queries l tr = (Return tt, l', tr') /\
    writer_ready l' /\
    header_written l'
    = header_written l || is_some (first_header i queries) /\
    output l' = output l ++ header_text (header_written l) i queries
                ++ flat_map Csv.record
                     (written_rows (header_written l) i queries) /\
    processed l' = processed l + len (written_rows (header_written l) i queries) /\
    searches tr' = searches tr ++ map strip (filter nonblank queries).
Proof.
  induction queries as [|q rest IH]; intros i l tr Hl.
  - exists l, tr. unfold header_text. cbn.
    rewrite !app_nil_r, Z.add_0_r, orb_false_r.
    repeat split; try assumption.
    destruct (header_written l); rewrite app_nil_r; reflexivity.
  - destruct (for_body_run T m i q l tr Hl)
      as (l1 & tr1 & Hrun & Hl1 & Hhw & Hout & Hn & Hs).
    destruct (IH (i + 1) l1 tr1 Hl1)
      as (l2 & tr2 & Hrun2 & Hl2 & Hhw2 & Hout2 & Hn2 & Hs2).
    exists l2, tr2. cbn [for_queries]. unfold bind. rewrite Hrun, Hrun2.
    rewrite Hhw in *. repeat split.
    + exact Hl2.
    + rewrite Hhw2. symmetry. apply first_header_cons.
    + pose proof (written_cons (header_written l) i q rest) as Hw.
      cbv zeta in Hw. rewrite <- Hw, Hout2, Hout, <- !app_assoc.
      reflexivity.
    + rewrite (written_rows_cons_len (header_written l) i q rest), Hn2, Hn. lia.
    + rewrite Hs2, Hs, <- app_assoc, <- map_app. f_equal. f_equal.
      cbn [filter]. destruct (nonblank q); reflexivity.
Qed.

Lemma writer_ready_initial : writer_ready initial.
Proof. reflexivity. Qed.

(** The loop over a concatenation: the first part, then the second from
    where the first stopped. *)
Lemma for_queries_app (T : Z) (m : target) (xs ys : list str) :
  forall (i : Z) (l : locals) (tr : list event),
  for_queries T m i (xs ++ ys) l tr
  = (for_queries T m i xs ;; for_queries T m (i + len xs) ys) l tr.
Proof.
  induction xs as [|x xs IH]; intros i l tr.
  - cbn. rewrite Z.add_0_r. reflexivity.
  - cbn [app for_queries]. unfold bind.
    destruct (for_body T m i x l tr) as [[[u|e] l1] tr1]; [|reflexivity].
    rewrite IH, len_cons. unfold bind.
    replace (i + (1 + len xs)) with (i + 1 + len xs) by lia. reflexivity.
Qed.

End BatchFacts.

(** * What a batch writes when the source succeeds or raises *)

Section RowsFacts.

Context {xml : Type} `{C : Collaborators xml}.

Lemma succeeds_nonblank (hw : bool) (i : Z) (q : str) :
  succeeds hw i q -> nonblank q = true.
Proof.
  intros [[r Hr] _]. unfold row_of, looked_up in Hr. unfold nonblank.
  destruct (truthy (strip q)); [reflexivity | discriminate].
Qed.

Lemma all_succeed_nonblank (qs : list str) :
  forall hw i, all_succeed hw i qs -> filter nonblank qs = qs.
Proof.
  induction qs as [|q qs IH]; intros hw i H; [reflexivity|].
  destruct H as [Hq Hqs]. cbn [filter].
  rewrite (succeeds_nonblank _ _ _ Hq), (IH _ _ Hqs). reflexivity.
Qed.

Lemma rows_of_app (xs ys : list str) :
  forall i, rows_of i (xs ++ ys) = rows_of i xs ++ rows_of (i + len xs) ys.
Proof.
  induction xs as [|x xs IH]; intros i; cbn [app rows_of].
  - rewrite len_nil, Z.add_0_r. reflexivity.
  - rewrite IH, len_cons, <- app_assoc.
    replace (i + 1 + len xs) with (i + (1 + len xs)) by lia. reflexivity.
Qed.

(** Once the header is out, every derived row is written. *)
Lemma written_rows_true (qs : list str) :
  forall i, written_rows true i qs = rows_of i qs.
Proof.
  induction qs as [|q qs IH]; intros i; [reflexivity|].
  cbn [written_rows rows_of orb]. rewrite IH. reflexivity.
Qed.

(** Queries without a header write nothing while none is out. *)
Lemma written_rows_no_header (xs ys : list str) :
  forall i, no_header i xs ->
  written_rows false i (xs ++ ys) = written_rows false (i + len xs) ys /\
  first_header i (xs ++ ys) = first_header (i + len xs) ys.
Proof.
  induction xs as [|x xs IH]; intros i H; cbn [app].
  - rewrite len_nil, Z.add_0_r. split; reflexivity.
  - destruct H as [Hx Hxs]. cbn [written_rows first_header]. rewrite Hx.
    cbn [is_some orb app]. rewrite len_cons.
    replace (i + (1 + len xs)) with (i + 1 + len xs) by lia.
    apply IH, Hxs.
Qed.

(** A query for which the source succeeds has its row written, and a
    header is out afterwards. *)
Lemma succeeds_written (hw : bool) (i : Z) (q : str) :
  succeeds hw i q ->
  hw || is_some (header_of i q) = true /\
  exists r, row_of i q = Some r.
Proof.
  intros [Hr Hh]. split; [|exact Hr].
  destruct hw; [reflexivity|].
  destruct (Hh eq_refl) as [h ->]. reflexivity.
Qed.

(** Queries for which the source succeeds write their rows, whatever
    follows them. *)
Lemma written_rows_all_succeed (xs ys : list str) :
  forall i hw, all_succeed hw i xs ->
  written_rows hw i (xs ++ ys)
  = rows_of i xs ++ written_rows (hw || nonempty xs) (i + len xs) ys.
Proof.
  induction xs as [|x xs IH]; intros i hw H; cbn [app].
  - rewrite len_nil, Z.add_0_r. cbn [nonempty]. rewrite orb_false_r.
    reflexivity.
  - destruct H as [Hx Hxs].
    destruct (succeeds_written _ _ _ Hx) as [Hhw [r Hr]].
    cbn [written_rows rows_of nonempty]. rewrite Hhw, Hr, orb_true_r.
    rewrite (IH _ _ Hxs), len_cons. cbn [orb].
    replace (i + (1 + len xs)) with (i + 1 + len xs) by lia.
    rewrite <- app_assoc. reflexivity.
Qed.

Lemma rows_of_all_succeed (xs : list str) :
  forall hw i, all_succeed hw i xs ->
  List.length (rows_of i xs) = List.length xs.
Proof.
  induction xs as [|x xs IH]; intros hw i H; [reflexivity|].
  destruct H as [[[r Hr] _] Hxs]. cbn [rows_of]. rewrite Hr.
  cbn. f_equal. exact (IH _ _ Hxs).
Qed.

(** A query for which the source raises writes no row. *)
Lemma written_rows_raises (hw : bool) (k : Z) (qk : str) (ys : list str) :
  raises hw k qk ->
  written_rows hw k (qk :: ys)
  = written_rows (hw || is_some (header_of k qk)) (k + 1) ys.
Proof.
  intros [_ [Hr|[-> Hh]]]; cbn [written_rows].
  - rewrite Hr. cbn [opt_list].
    destruct (hw || is_some (header_of k qk)); reflexivity.
  - rewrite Hh. reflexivity.
Qed.

(** The loop of [process_queries] ends without raising. *)
Lemma after_loop_run (queries : list str) (m : target) (tr : list event) :
  exists l tr',
    after_loop queries m tr = (Return tt, l, tr') /\
    output l = header_text false 1 queries
               ++ flat_map Csv.record (written_rows false 1 queries) /\
    processed l = len (written_rows false 1 queries) /\
    searches tr' = searches tr ++ map strip (filter nonblank queries).
Proof.
  destruct (for_queries_run (len queries) m queries 1 initial tr writer_ready_initial)
    as (l & tr' & Hrun & _ & _ & Hout & Hn & Hs).
  exists l, tr'. repeat split; assumption.
Qed.

(** [process_queries] within the ceiling, once the client is made, from the
    state the loop ends in. *)
Lemma process_queries_after_loop (queries : list str) (m : target)
    (tr tr1 : list event) (l : locals) :
  Organic = Return tt ->
  len queries <= MAX_QUERIES ->
  after_loop queries m tr = (Return tt, l, tr1) ->
  process_queries queries m tr
  = if processed l =? 0
    then (Return None, tr1 ++ [Reply m nothing_processed_text])
    else if negb (truthy (output l)) then (Return None, tr1)
    else match Codec.utf_8_sig_encode (output l) with
         | Some data => (Return (Some data), tr1)
         | None =>
             (Return None,
              tr1 ++ [Reply m (failure_text (str_of_exn UnicodeEncodeError))])
         end.
Proof.
  intros Hnew Hle Hrun. rewrite process_queries_eq.
  destruct (Z.gtb_spec (len queries) MAX_QUERIES) as [Hgt|_]; [lia|].
  unfold after_loop in Hrun.
  unfold batch, batch_on, finish, finish_on, try_except, bind, gets, call,
    ret, lift, Exception, reliable, reply, answer.
  rewrite Hnew, Hrun.
  destruct (processed l =? 0); [reflexivity|].
  destruct (negb (truthy (output l))); [reflexivity|].
  destruct (Codec.utf_8_sig_encode (output l)); reflexivity.
Qed.

(** The same on any channel: what [process_queries] does with the state
    the loop ends in, the replies answering as the channel says. *)
Lemma process_queries_on_after_loop (ch : Channel) (queries : list str)
    (m : target) (tr tr1 : list event) (l : locals) :
  Organic = Return tt ->
  len queries <= MAX_QUERIES ->
  after_loop queries m tr = (Return tt, l, tr1) ->
  let failed (e : exn) (trace : list event) :=
    (match reply ch m (failure_text (str_of_exn e)) with
     | Return _ => Return None
     | Raise e' => Raise e'
     end,
     trace ++ [Reply m (failure_text (str_of_exn e))]) in
  process_queries_on ch queries m tr
  = if processed l =? 0
    then match reply ch m nothing_processed_text with
         | Return _ => (Return None, tr1 ++ [Reply m nothing_processed_text])
         | Raise e => failed e (tr1 ++ [Reply m nothing_processed_text])
         end
    else if negb (truthy (output l)) then (Return None, tr1)
    else match Codec.utf_8_sig_encode (output l) with
         | Some data => (Return (Some data), tr1)
         | None => failed UnicodeEncodeError tr1
         end.
Proof.
  intros Hnew Hle Hrun failed. unfold failed.
  unfold process_queries_on, process_queries_body.
  destruct (Z.gtb_spec (len queries) MAX_QUERIES) as [Hgt|_]; [lia|].
  unfold after_loop in Hrun.
  unfold batch_on, finish_on, try_except, bind, gets, call, ret, lift,
    Exception.
  rewrite Hnew, Hrun.
  destruct (processed l =? 0).
  { destruct (reply ch m nothing_processed_text) as [u|e]; [reflexivity|].
    destruct (reply ch m (failure_text (str_of_exn e))); reflexivity. }
  destruct (negb (truthy (output l))); [reflexivity|].
  destruct (Codec.utf_8_sig_encode (output l)); [reflexivity|].
  destruct (reply ch m (failure_text (str_of_exn UnicodeEncodeError)));
    reflexivity.
Qed.

End RowsFacts.

(** * The events of a batch *)

Section TraceFacts.

Context {xml : Type} `{C : Collaborators xml}.

Ltac unfold_body :=
  unfold for_body, try_except, bind, call, lift, gets, modify, ret, writerow,
    Exception.

Ltac close_trace :=
  eexists; eexists; split;
  [rewrite <- ?app_assoc; reflexivity | reflexivity].

(** One turn always returns, and adds events of a batch to the trace. *)
Lemma for_body_total (T : Z) (m : target) (i : Z) (q : str)
    (l : locals) (tr : list event) :
  exists l' evs,
    for_body T m i q l tr = (Return tt, l', tr ++ evs) /\
    forallb batch_event evs = true.
Proof.
  destruct l as [out w hw n]. unfold_body.
  destruct (truthy (strip q)); cbn;
    [|exists {| output := out; writer := w; header_written := hw;
                processed := n |}, [];
      rewrite app_nil_r; split; reflexivity].
  destruct (search_xmlriver i (strip q)) as [x|e]; cbn; [|close_trace].
  destruct hw; cbn.
  - destruct (get_row x (strip q)) as [r|e]; cbn; [|close_trace].
    destruct w; cbn; [|close_trace].
    destruct (i mod 10 =? 0); cbn;
      [destruct (edit_text i (progress_text i T)) as [[]|[]]; cbn|];
      close_trace.
  - destruct (get_header x) as [h|e]; cbn; [|close_trace].
    destruct (get_row x (strip q)) as [r|e]; cbn; [|close_trace].
    destruct (i mod 10 =? 0); cbn;
      [destruct (edit_text i (progress_text i T)) as [[]|[]]; cbn|];
      close_trace.
Qed.

Lemma for_queries_total (T : Z) (m : target) (queries : list str) :
  forall (i : Z) (l : locals) (tr : list event),
  exists l' evs,
    for_queries T m i queries l tr = (Return tt, l', tr ++ evs) /\
    forallb batch_event evs = true.
Proof.
  induction queries as [|q rest IH]; intros i l tr.
  - exists l, []. rewrite app_nil_r. split; reflexivity.
  - destruct (for_body_total T m i q l tr) as (l1 & ev1 & Hrun1 & Hev1).
    destruct (IH (i + 1) l1 (tr ++ ev1)) as (l2 & ev2 & Hrun2 & Hev2).
    exists l2, (ev1 ++ ev2). cbn [for_queries]. unfold bind.
    rewrite Hrun1, Hrun2, app_assoc, forallb_app, Hev1, Hev2.
    split; reflexivity.
Qed.

(** A turn that raises the processed count has looked the query up and,
    at a position that is a multiple of 10, edited the status message
    next; elsewhere it has looked the query up and slept. *)
Lemma for_body_processed (T : Z) (m : target) (i : Z) (q : str)
    (l l' : locals) (tr tr' : list event) :
  for_body T m i q l tr = (Return tt, l', tr') ->
  processed l' = processed l + 1 ->
  if i mod 10 =? 0
  then exists rest,
      tr' = tr ++ [SearchXmlriver (strip q);
                   EditText m (progress_text i T)] ++ rest
  else tr' = tr ++ [SearchXmlriver (strip q); Sleep SLEEP_BETWEEN_REQUESTS].
Proof.
  destruct l as [out w hw n]. unfold_body.
  destruct (truthy (strip q)); cbn;
    [|intros H; injection H as <- <-; cbn; lia].
  destruct (search_xmlriver i (strip q)) as [x|e]; cbn;
    [|intros H; injection H as <- <-; cbn; lia].
  assert (Hstop : forall (l0 l1 : locals) (t0 t1 : list event),
             (Return tt, l0, t0) = (Return tt, l1, t1) ->
             processed l0 = n -> processed l1 = n + 1 -> False).
  { intros l0 l1 t0 t1 H H0 H1. injection H as <- <-. lia. }
  destruct hw; cbn.
  - destruct (get_row x (strip q)) as [r|e]; cbn;
      [|intros H H1; exfalso; exact (Hstop _ _ _ _ H eq_refl H1)].
    destruct w; cbn;
      [|intros H H1; exfalso; exact (Hstop _ _ _ _ H eq_refl H1)].
    destruct (i mod 10 =? 0); cbn;
      [destruct (edit_text i (progress_text i T)) as [[]|[]]; cbn|];
      intros H _; injection H as <- <-; rewrite <- ?app_assoc;
      try reflexivity; eexists; reflexivity.
  - destruct (get_header x) as [h|e]; cbn;
      [|intros H H1; exfalso; exact (Hstop _ _ _ _ H eq_refl H1)].
    destruct (get_row x (strip q)) as [r|e]; cbn;
      [|intros H H1; exfalso; exact (Hstop _ _ _ _ H eq_refl H1)].
    destruct (i mod 10 =? 0); cbn;
      [destruct (edit_text i (progress_text i T)) as [[]|[]]; cbn|];
      intros H _; injection H as <- <-; rewrite <- ?app_assoc;
      try reflexivity; eexists; reflexivity.
Qed.

(** A lookup that raises ends the turn: nothing follows it, no delay
    either. *)
Lemma for_body_lookup_raises (T : Z) (m : target) (i : Z) (q : str)
    (e : exn) (l : locals) (tr : list event) :
  truthy (strip q) = true ->
  search_xmlriver i (strip q) = Raise e ->
  for_body T m i q l tr = (Return tt, l, tr ++ [SearchXmlriver (strip q)]).
Proof.
  intros Hq He. unfold_body. rewrite Hq, He. reflexivity.
Qed.

Lemma startswith_app (needle rest : str) :
  startswith (needle ++ rest) needle = true.
Proof.
  induction needle as [|c needle IH]; [destruct rest; reflexivity|].
  cbn. rewrite N.eqb_refl. exact IH.
Qed.

Lemma contains_app (front needle rest : str) :
  contains (front ++ needle ++ rest) needle = true.
Proof.
  induction front as [|c front IH]; cbn [app].
  - destruct (needle ++ rest) eqn:E; cbn [contains];
      rewrite <- E, startswith_app; reflexivity.
  - cbn [contains]. rewrite IH. apply orb_true_r.
Qed.

(** The progress text shows the position and the total, as [i/total]. *)
Lemma progress_text_shows (i total : Z) :
  contains (progress_text i total)
           (str_of_int i ++ py "/" ++ str_of_int total) = true.
Proof.
  unfold progress_text.
  replace (str_of_int i ++ py "/" ++ str_of_int total ++ py " запросов...")
    with ((str_of_int i ++ py "/" ++ str_of_int total) ++ py " запросов...")
    by (rewrite <- !app_assoc; reflexivity).
  apply contains_app.
Qed.

End TraceFacts.

(** * The events of the handler *)

Section HandlerFacts.

Context {xml : Type} `{C : Collaborators xml}.

Lemma documents_app (a b : list event) :
  documents (a ++ b) = documents a ++ documents b.
Proof. apply flat_map_app. Qed.

Lemma batch_events_no_document (evs : list event) :
  forallb batch_event evs = true -> documents evs = [].
Proof.
  induction evs as [|ev evs IH]; [reflexivity|].
  cbn [forallb]. intros H. apply andb_true_iff in H as [Hev Hevs].
  destruct ev; try discriminate Hev; cbn; apply IH, Hevs.
Qed.

(** When every reply returns, [process_queries] returns, and adds events of
    a batch. *)
Lemma process_queries_total (queries : list str) (m : target)
    (tr : list event) :
  exists o evs,
    process_queries queries m tr = (Return o, tr ++ evs) /\
    forallb batch_event evs = true.
Proof.
  rewrite process_queries_eq.
  destruct (len queries >? MAX_QUERIES).
  { do 2 eexists. split; reflexivity. }
  destruct (for_queries_total (len queries) m queries 1 initial tr)
    as (l & evs & Hrun & Hevs).
  unfold batch, batch_on, finish, finish_on, try_except, bind, gets, call,
    ret, lift, Exception, reliable, reply, answer.
  destruct Organic as [[]|e].
  2:{ do 2 eexists. split; reflexivity. }
  rewrite Hrun.
  destruct (processed l =? 0).
  { exists None, (evs ++ [Reply m nothing_processed_text]).
    rewrite app_assoc, forallb_app, Hevs. split; reflexivity. }
  destruct (negb (truthy (output l))).
  { exists None, evs. split; [reflexivity | exact Hevs]. }
  destruct (Codec.utf_8_sig_encode (output l)) as [data|].
  - exists (Some data), evs. split; [reflexivity | exact Hevs].
  - exists None,
      (evs ++ [Reply m (failure_text (str_of_exn UnicodeEncodeError))]).
    rewrite app_assoc, forallb_app, Hevs. split; reflexivity.
Qed.

(** On any channel [process_queries] only adds to the trace. *)
Lemma process_queries_on_extends (ch : Channel) (queries : list str)
    (m : target) (tr : list event) :
  exists r evs, process_queries_on ch queries m tr = (r, tr ++ evs).
Proof.
  unfold process_queries_on, process_queries_body.
  destruct (len queries >? MAX_QUERIES).
  { unfold bind, call, ret.
    destruct (reply ch m (too_many_text (len queries)));
      do 2 eexists; reflexivity. }
  destruct (for_queries_total (len queries) m queries 1 initial tr)
    as (l & evs & Hrun & _).
  unfold batch_on, finish_on, try_except, bind, gets, call, ret, lift,
    Exception.
  destruct Organic as [[]|e].
  2:{ destruct (reply ch m (failure_text (str_of_exn e)));
        do 2 eexists; reflexivity. }
  rewrite Hrun.
  destruct (processed l =? 0).
  { destruct (reply ch m nothing_processed_text) as [u|e];
      [do 2 eexists; rewrite <- app_assoc; reflexivity|].
    destruct (reply ch m (failure_text (str_of_exn e)));
      do 2 eexists; rewrite <- !app_assoc; reflexivity. }
  destruct (negb (truthy (output l))); [do 2 eexists; reflexivity|].
  destruct (Codec.utf_8_sig_encode (output l)) as [data|];
    [do 2 eexists; reflexivity|].
  destruct (reply ch m (failure_text (str_of_exn UnicodeEncodeError)));
    do 2 eexists; rewrite <- app_assoc; reflexivity.
Qed.

(** [extract_queries_from_file] sends no document. *)
Lemma extract_queries_from_file_documents (message : Message)
    (tr : list event) :
  exists r tr',
    extract_queries_from_file message tt tr = (Return r, tt, tr') /\
    documents tr' = documents tr.
Proof.
  unfold extract_queries_from_file, extract_queries_from_file_on,
    try_except, bind, call, ret, Exception, reliable, reply, answer.
  destruct (document message) as [doc|];
    [|do 2 eexists; split; reflexivity].
  destruct (over_size (file_size doc));
    [do 2 eexists; split; [reflexivity|];
     rewrite documents_app; apply app_nil_r|].
  destruct (negb (accepted_mime (mime_type doc)));
    [do 2 eexists; split; [reflexivity|];
     rewrite documents_app; apply app_nil_r|].
  destruct (get_file (file_id doc)) as [path|e];
    [|do 2 eexists; split; [reflexivity|];
      rewrite !documents_app; cbn; rewrite !app_nil_r; reflexivity].
  destruct (download_file path) as [data|e];
    [|do 2 eexists; split; [reflexivity|];
      rewrite !documents_app; cbn; rewrite !app_nil_r; reflexivity].
  destruct (decode_with encodings data) as [content|];
    do 2 eexists; (split; [reflexivity|]);
    rewrite !documents_app; cbn; rewrite !app_nil_r; reflexivity.
Qed.

(** What [report] sends: at most one document, named after the number of
    queries of the batch, holding the payload [process_queries] returned. *)
Lemma report_documents (queries : list str) (tr : list event) :
  exists r tr',
    report queries tt tr = (r, tt, tr') /\
    (documents tr' = documents tr \/
     exists data tr0 tr1,
       process_queries queries Status tr0 = (Return (Some data), tr1) /\
       documents tr'
       = documents tr ++ [(report_filename (len queries), data)]).
Proof.
  unfold report, report_on, run_process_queries_on, try_except, bind, call,
    ret, Exception.
  change (process_queries_on reliable) with (process_queries (C := C)).
  unfold reliable, reply, answer.
  set (tr0 := tr ++ [Answer (starting_text (format_minutes (len queries))
                                           (len queries))]).
  destruct (process_queries_total queries Status tr0)
    as (o & evs & Hrun & Hevs).
  rewrite Hrun.
  assert (Hevs0 : documents evs = [])
    by exact (batch_events_no_document _ Hevs).
  assert (Htr0 : documents tr0 = documents tr).
  { unfold tr0. rewrite documents_app. apply app_nil_r. }
  destruct o as [data|].
  2:{ do 2 eexists. split; [reflexivity|]. left.
      rewrite documents_app, Htr0, Hevs0. apply app_nil_r. }
  destruct (edit_text_sending sending_text) as [[]|e].
  2:{ destruct (isTelegramNetworkError e);
        do 2 eexists; (split; [reflexivity|]); left;
        rewrite !documents_app, Htr0, Hevs0; cbn; rewrite !app_nil_r;
        reflexivity. }
  assert (Hsent : forall tail, documents tail = [] ->
            documents ((((tr0 ++ evs) ++ [EditText Status sending_text])
                        ++ [AnswerDocument data (report_filename (len queries))
                                           (report_caption (len queries))])
                       ++ tail)
            = documents tr ++ [(report_filename (len queries), data)]).
  { intros tail Htail. rewrite !documents_app, Htr0, Hevs0, Htail. cbn.
    rewrite !app_nil_r. reflexivity. }
  destruct (answer_document data (report_filename (len queries))
                            (report_caption (len queries))) as [[]|e].
  - destruct delete as [[]|e];
      do 2 eexists; (split; [reflexivity|]); right;
      exists data, tr0, (tr0 ++ evs); (split; [exact Hrun|]).
    + rewrite <- (Hsent [Delete Status]) by reflexivity. reflexivity.
    + rewrite <- (Hsent [Delete Status]) by reflexivity. reflexivity.
  - destruct (isTelegramNetworkError e);
      do 2 eexists; (split; [reflexivity|]); right;
      exists data, tr0, (tr0 ++ evs); (split; [exact Hrun|]).
    + rewrite <- (Hsent [Reply Incoming send_network_error_text])
        by reflexivity. reflexivity.
    + rewrite <- (Hsent [Reply Incoming send_error_text]) by reflexivity.
      reflexivity.
Qed.

Lemma with_queries_documents (queries : list str) (tr : list event) :
  exists r tr',
    with_queries queries tt tr = (r, tt, tr') /\
    (documents tr' = documents tr \/
     exists data tr0 tr1,
       process_queries queries Status tr0 = (Return (Some data), tr1) /\
       documents tr'
       = documents tr ++ [(report_filename (len queries), data)]).
Proof.
  destruct queries as [|q queries]; [|apply report_documents].
  do 2 eexists. split; [reflexivity|]. left.
  rewrite documents_app. apply app_nil_r.
Qed.

End HandlerFacts.

(** * The batch processor: failure isolation, header, ceiling, outcome *)

Section BatchClaims.

Context {xml : Type} `{C : Collaborators xml}.

(** C1, as the code has it.  Let the turn of the query at position [k]
    raise, and let the source succeed for all the others: the lookup
    returns a record and its row is derived and, for the one query whose
    turn finds no header written, its header is derived too.  Then the loop
    runs to its end: every query, the one at [k] included, is looked up
    once and in input order (no retry, no abort); the processed count is
    the number of the other queries; and the CSV text is the header line
    followed by the rows of the other queries in input order, one each,
    none for [k]. *)
Theorem failure_isolation (before after : list str) (qk : str)
    (m : target) (tr : list event) :
  let queries := before ++ qk :: after in
  let k := len before + 1 in
  let hw := nonempty before in
  all_succeed false 1 before ->
  raises hw k qk ->
  all_succeed (hw || is_some (header_of k qk)) (k + 1) after ->
  exists l tr',
    after_loop queries m tr = (Return tt, l, tr') /\
    searches tr' = searches tr ++ map strip queries /\
    processed l = len before + len after /\
    output l = header_text false 1 queries
               ++ flat_map Csv.record (rows_of 1 before ++ rows_of (k + 1) after) /\
    List.length (rows_of 1 before ++ rows_of (k + 1) after)
    = (List.length before + List.length after)%nat.
Proof.
  intros queries k hw Hb Hk Ha.
  destruct (after_loop_run queries m tr) as (l & tr' & Hrun & Hout & Hn & Hs).
  assert (Hrows : written_rows false 1 queries
                  = rows_of 1 before ++ rows_of (k + 1) after).
  { unfold queries. rewrite (written_rows_all_succeed before _ _ _ Hb).
    replace (1 + len before) with k by (unfold k; lia).
    cbn [orb]. fold hw. rewrite (written_rows_raises _ _ _ _ Hk).
    rewrite <- (app_nil_r after) at 1.
    rewrite (written_rows_all_succeed after _ _ _ Ha). cbn [written_rows].
    rewrite app_nil_r. reflexivity. }
  assert (Hlen : List.length (rows_of 1 before ++ rows_of (k + 1) after)
                 = (List.length before + List.length after)%nat).
  { rewrite length_app, (rows_of_all_succeed _ _ _ Hb),
      (rows_of_all_succeed _ _ _ Ha). reflexivity. }
  exists l, tr'. repeat split.
  - exact Hrun.
  - rewrite Hs. f_equal. f_equal. unfold queries.
    rewrite filter_app. cbn [filter]. destruct Hk as [Hk _].
    unfold nonblank at 2. rewrite Hk.
    rewrite (all_succeed_nonblank _ _ _ Hb), (all_succeed_nonblank _ _ _ Ha).
    reflexivity.
  - rewrite Hn, Hrows. unfold len. rewrite Hlen. lia.
  - rewrite Hout, Hrows. reflexivity.
  - exact Hlen.
Qed.

(** C2, as the code has it.  The header line is that of the first query
    for which the lookup returns a record and the header derivation
    returns, whether or not the row derivation of that record then returns.
    It is written once, at the top; below it stand the rows of the records
    from that query on whose row derivation returns, whatever header those
    records would give. *)
Theorem header_once (before after : list str) (q : str) (h : row)
    (m : target) (tr : list event) :
  let k := len before + 1 in
  no_header 1 before ->
  header_of k q = Some h ->
  exists l tr',
    after_loop (before ++ q :: after) m tr = (Return tt, l, tr') /\
    output l = Csv.record h ++ flat_map Csv.record (rows_of k (q :: after)) /\
    processed l = len (rows_of k (q :: after)).
Proof.
  intros k Hb Hq.
  destruct (after_loop_run (before ++ q :: after) m tr)
    as (l & tr' & Hrun & Hout & Hn & _).
  destruct (written_rows_no_header before (q :: after) 1 Hb) as [Hw Hf].
  replace (1 + len before) with k in * by (unfold k; lia).
  assert (Hrows : written_rows false 1 (before ++ q :: after)
                  = rows_of k (q :: after)).
  { rewrite Hw. cbn [written_rows rows_of]. rewrite Hq. cbn [is_some orb].
    rewrite written_rows_true. reflexivity. }
  exists l, tr'. repeat split.
  - exact Hrun.
  - rewrite Hout, Hrows. unfold header_text. rewrite Hf.
    cbn [first_header]. rewrite Hq. reflexivity.
  - rewrite Hn, Hrows. reflexivity.
Qed.

(** C3. Batch ceiling.  A batch of more than 10000 queries is answered at
    once with the too-many message: [process_queries] returns [None], and
    that message is the only event, so no lookup is made. *)
Theorem batch_ceiling (queries : list str) (m : target) (tr : list event) :
  len queries > MAX_QUERIES ->
  process_queries queries m tr
  = (Return None, tr ++ [Reply m (too_many_text (len queries))]) /\
  searches (snd (process_queries queries m tr)) = searches tr.
Proof.
  intros H. rewrite process_queries_eq.
  destruct (Z.gtb_spec (len queries) MAX_QUERIES) as [_|Hle]; [|lia].
  split; [reflexivity|]. cbn [snd]. rewrite searches_app. cbn.
  apply app_nil_r.
Qed.

Lemma nothing_processed_is_no_failure (described : str) :
  nothing_processed_text <> failure_text described.
Proof.
  unfold failure_text. intros H.
  apply (f_equal (firstn 3)) in H. vm_compute in H. discriminate H.
Qed.

(** C4, as the code has it.  Let the batch be within the ceiling and the
    client be made, so that the loop is reached.  The loop ends; when it
    ends with nothing processed, [process_queries] gives no payload and
    calls the nothing-processed reply, a text that no rendering of the
    failure message equals.  When that reply returns, [None] is returned
    and the reply is the last act.  When it raises, the handler of the
    outer [try] takes the exception, and the failure reply follows. *)
Theorem empty_result (ch : Channel) (queries : list str) (m : target)
    (tr : list event) :
  len queries <= MAX_QUERIES ->
  Organic = Return tt ->
  exists l tr1,
    after_loop queries m tr = (Return tt, l, tr1) /\
    (processed l = 0 ->
     (forall data,
        fst (process_queries_on ch queries m tr) <> Return (Some data)) /\
     (reply ch m nothing_processed_text = Return tt ->
      process_queries_on ch queries m tr
      = (Return None, tr1 ++ [Reply m nothing_processed_text])) /\
     (forall e,
        reply ch m nothing_processed_text = Raise e ->
        snd (process_queries_on ch queries m tr)
        = tr1 ++ [Reply m nothing_processed_text;
                  Reply m (failure_text (str_of_exn e))])) /\
    (forall described, nothing_processed_text <> failure_text described).
Proof.
  intros H Hnew.
  destruct (after_loop_run queries m tr) as (l & tr1 & Hrun & _).
  exists l, tr1. split; [exact Hrun|]. split.
  - intros Hn.
    pose proof (process_queries_on_after_loop ch _ _ _ _ _ Hnew H Hrun) as Hpq.
    cbv zeta in Hpq. rewrite Hn in Hpq. cbn [Z.eqb] in Hpq. rewrite Hpq.
    repeat split.
    + intros data.
      destruct (reply ch m nothing_processed_text) as [u|e]; cbn [fst];
        [discriminate|].
      destruct (reply ch m (failure_text (str_of_exn e))); discriminate.
    + intros ->. reflexivity.
    + intros e ->. cbn [snd]. rewrite <- app_assoc. reflexivity.
  - apply nothing_processed_is_no_failure.
Qed.

(** C7. Report encoding.  A payload returned by [process_queries] is the
    CSV text the loop accumulated, encoded in UTF-8 behind the byte-order
    marker: its first three bytes are EF BB BF. *)
Theorem report_encoding (queries : list str) (m : target)
    (tr tr' : list event) (data : bytes) :
  process_queries queries m tr = (Return (Some data), tr') ->
  exists l body,
    after_loop queries m tr = (Return tt, l, tr') /\
    Codec.utf_8_encode (output l) = Some body /\
    data = Codec.BOM_UTF8 ++ body /\
    firstn 3 data = [xef; xbb; xbf].
Proof.
  intros H.
  destruct (after_loop_run queries m tr) as (l & tr1 & Hrun & _).
  assert (Hle : len queries <= MAX_QUERIES).
  { rewrite process_queries_eq in H.
    destruct (Z.gtb_spec (len queries) MAX_QUERIES); [discriminate | lia]. }
  assert (Hnew : Organic = Return tt).
  { rewrite process_queries_eq in H.
    destruct (len queries >? MAX_QUERIES); [discriminate|].
    unfold batch, batch_on, try_except, bind, lift, call, ret, Exception,
      reliable, reply, answer in H.
    destruct Organic as [[]|e]; [reflexivity | discriminate]. }
  rewrite (process_queries_after_loop _ _ _ _ _ Hnew Hle Hrun) in H.
  destruct (processed l =? 0); [discriminate|].
  destruct (negb (truthy (output l))); [discriminate|].
  unfold Codec.utf_8_sig_encode in H.
  destruct (Codec.utf_8_encode (output l)) as [body|] eqn:Hbody;
    cbn [option_map] in H; [|discriminate].
  injection H as <- <-.
  exists l, body. repeat split; [exact Hrun | exact Hbody].
Qed.

End BatchClaims.

(** * Progress reports and pacing *)

Section ProgressClaims.

Context {xml : Type} `{C : Collaborators xml}.

(** C5, as the code has it.  Take the query at position [i], a multiple
    of 10, and let its turn raise the processed count.  Then right after
    the lookup of that query the status message is edited, with a text
    that shows [i/total]: the 1-based position of the query and the length
    of the batch.  The loop then runs on to its end. *)
Theorem progress_cadence (before after : list str) (q : str)
    (m : target) (tr tr1 tr2 : list event) (l1 l2 : locals) :
  let queries := before ++ q :: after in
  let total := len queries in
  let i := len before + 1 in
  i mod 10 = 0 ->
  for_queries total m 1 before initial tr = (Return tt, l1, tr1) ->
  for_body total m i q l1 tr1 = (Return tt, l2, tr2) ->
  processed l2 = processed l1 + 1 ->
  exists l rest,
    after_loop queries m tr
    = (Return tt, l,
       tr1 ++ [SearchXmlriver (strip q); EditText m (progress_text i total)]
           ++ rest) /\
    contains (progress_text i total)
             (str_of_int i ++ py "/" ++ str_of_int total) = true.
Proof.
  intros queries total i Hi Hbefore Hbody Hn.
  pose proof (for_body_processed _ _ _ _ _ _ _ _ Hbody Hn) as Hshape.
  rewrite (proj2 (Z.eqb_eq _ _) Hi) in Hshape.
  destruct Hshape as [rest1 ->].
  destruct (for_queries_total total m after (i + 1) l2
              (tr1 ++ [SearchXmlriver (strip q);
                       EditText m (progress_text i total)] ++ rest1))
    as (l & rest2 & Hafter & _).
  exists l, (rest1 ++ rest2). split; [|apply progress_text_shows].
  unfold after_loop. fold total. unfold queries.
  rewrite for_queries_app. unfold bind at 1. rewrite Hbefore.
  replace (1 + len before) with i by (unfold i; lia).
  cbn [for_queries]. unfold bind. rewrite Hbody, Hafter.
  rewrite <- !app_assoc. reflexivity.
Qed.

End ProgressClaims.

(** [progress_cadence] on ten queries that all succeed: the tenth turn
    edits the status message with the text for 10/10. *)
Lemma progress_cadence_witness :
  exists l rest,
    after_loop (C := fails_at 0) (nine_queries ++ py "q" :: []) Status []
    = (Return tt, l,
       snd after_nine
       ++ [SearchXmlriver (strip (py "q"));
           EditText Status
             (progress_text (len nine_queries + 1)
                            (len (nine_queries ++ py "q" :: [])))]
       ++ rest) /\
    contains (progress_text (len nine_queries + 1)
                            (len (nine_queries ++ py "q" :: [])))
             (str_of_int (len nine_queries + 1) ++ py "/"
              ++ str_of_int (len (nine_queries ++ py "q" :: []))) = true.
Proof.
  apply (progress_cadence (C := fails_at 0) nine_queries [] (py "q") Status []
           (snd after_nine) (snd after_tenth)
           (snd (fst after_nine)) (snd (fst after_tenth)));
    vm_compute; reflexivity.
Defined.

(** * Runs on concrete batches *)

(** [failure_isolation] on three queries, the second of which raises and
    the third of which gives a row and no header: three lookups, two rows,
    none for the second query. *)
Lemma failure_isolation_witness :
  exists l tr',
    after_loop (C := headless_third) ([py "a"] ++ py "b" :: [py "c"]) Status []
    = (Return tt, l, tr') /\
    searches tr' = searches [] ++ map strip ([py "a"] ++ py "b" :: [py "c"]) /\
    processed l = len [py "a"] + len [py "c"] /\
    output l
    = header_text (C := headless_third) false 1
        ([py "a"] ++ py "b" :: [py "c"])
      ++ flat_map Csv.record
           (rows_of (C := headless_third) 1 [py "a"]
            ++ rows_of (C := headless_third) (len [py "a"] + 1 + 1) [py "c"]) /\
    List.length (rows_of (C := headless_third) 1 [py "a"]
                 ++ rows_of (C := headless_third) (len [py "a"] + 1 + 1)
                      [py "c"])
    = (List.length [py "a"] + List.length [py "c"])%nat.
Proof.
  apply (failure_isolation (C := headless_third) [py "a"] [py "c"] (py "b")
           Status []).
  - split; [|exact I]. split; [|intros _]; eexists; vm_compute; reflexivity.
  - split; [|left]; vm_compute; reflexivity.
  - split; [|exact I]. split; [|intros H; discriminate H].
    eexists. vm_compute. reflexivity.
Defined.

(** That run: the header of the first record, its row and the row of the
    third. *)
Example headless_third_run :
  exists l tr,
    after_loop (C := headless_third) three_queries Status []
    = (Return tt, l, tr) /\
    processed l = 2 /\
    header_of (C := headless_third) 3 (py "c") = None /\
    output l = Csv.record [py "query"; py "position"]
               ++ Csv.record [py "a"; py "1"] ++ Csv.record [py "c"; py "3"].
Proof. do 2 eexists. repeat split; vm_compute; reflexivity. Qed.

(** C1, as stated, fails on three queries when the first record gives a
    row and no header.  The lookup of the first query returns and its row
    derivation returns; the lookup of the second raises; the third is
    looked up and derived in full.  The source has succeeded for two
    queries, yet the loop ends with one processed and one row, that of the
    third query: the first was dropped with its header. *)
Lemma lookup_without_header_dropped :
  row_of (C := headless_first) 1 (py "a") = Some [py "a"; py "1"] /\
  search_xmlriver (Collaborators := headless_first) 2 (py "b")
  = Raise timeout /\
  row_of (C := headless_first) 3 (py "c") = Some [py "c"; py "3"] /\
  exists l tr,
    after_loop (C := headless_first) three_queries Status []
    = (Return tt, l, tr) /\
    searches tr = three_queries /\
    processed l = 1 /\
    output l = Csv.record [py "query"; py "position"]
               ++ Csv.record [py "c"; py "3"].
Proof.
  repeat split; try (vm_compute; reflexivity).
  do 2 eexists. repeat split; vm_compute; reflexivity.
Qed.

(** [header_once] on the three uneven records: the header is the second
    record's, the only row the third's. *)
Lemma header_once_witness :
  exists l tr',
    after_loop (C := uneven) ([py "a"] ++ py "b" :: [py "c"]) Status []
    = (Return tt, l, tr') /\
    output l
    = Csv.record [py "query"; py "position"]
      ++ flat_map Csv.record
           (rows_of (C := uneven) (len [py "a"] + 1) (py "b" :: [py "c"])) /\
    processed l
    = len (rows_of (C := uneven) (len [py "a"] + 1) (py "b" :: [py "c"])).
Proof.
  apply (header_once (C := uneven) [py "a"] [py "c"] (py "b")
           [py "query"; py "position"] Status []).
  - split; [vm_compute; reflexivity | exact I].
  - vm_compute. reflexivity.
Defined.

(** C2, as stated, fails on the three uneven records.  The first record
    whose lookup returns is the first; no header is derived from it.  The
    first record that is processed is the third; its header is
    [query,url].  The header line written is [query,position], derived from
    the second record, whose row derivation raised. *)
Lemma header_not_from_first_success :
  exists l tr,
    after_loop (C := uneven) three_queries Status [] = (Return tt, l, tr) /\
    output l = Csv.record [py "query"; py "position"]
               ++ Csv.record [py "c"; py "example.org"] /\
    processed l = 1 /\
    (exists x, search_xmlriver (Collaborators := uneven) 1 (py "a") = Return x /\
               get_header (Collaborators := uneven) x = Raise timeout) /\
    (exists x, search_xmlriver (Collaborators := uneven) 2 (py "b") = Return x /\
               get_header (Collaborators := uneven) x
               = Return [py "query"; py "position"] /\
               get_row (Collaborators := uneven) x (py "b") = Raise timeout) /\
    row_of (C := uneven) 3 (py "c") = Some [py "c"; py "example.org"] /\
    header_of (C := uneven) 3 (py "c") = Some [py "query"; py "url"] /\
    (forall rest, output l <> Csv.record [py "query"; py "url"] ++ rest).
Proof.
  do 2 eexists. split; [vm_compute; reflexivity|].
  repeat match goal with |- _ /\ _ => split end;
    try (vm_compute; reflexivity).
  - eexists. split; vm_compute; reflexivity.
  - eexists. repeat split; vm_compute; reflexivity.
  - intros rest H. vm_compute in H. discriminate H.
Qed.

(** [batch_ceiling] on a batch of 10001 queries. *)
Lemma batch_ceiling_witness :
  process_queries (C := always_fails) oversized_batch Status []
  = (Return None, [] ++ [Reply Status (too_many_text (len oversized_batch))]) /\
  searches (snd (process_queries (C := always_fails) oversized_batch Status []))
  = searches [].
Proof.
  apply (batch_ceiling (C := always_fails) oversized_batch Status []).
  vm_compute. reflexivity.
Defined.

(** [empty_result] on one query whose lookup raises, every reply
    returning. *)
Lemma empty_result_witness :
  exists l tr1,
    after_loop (C := always_fails) [py "a"] Status [] = (Return tt, l, tr1) /\
    (processed l = 0 ->
     (forall data,
        fst (process_queries_on (C := always_fails) reliable [py "a"] Status [])
        <> Return (Some data)) /\
     (reply reliable Status nothing_processed_text = Return tt ->
      process_queries_on (C := always_fails) reliable [py "a"] Status []
      = (Return None, tr1 ++ [Reply Status nothing_processed_text])) /\
     (forall e,
        reply reliable Status nothing_processed_text = Raise e ->
        snd (process_queries_on (C := always_fails) reliable [py "a"] Status [])
        = tr1 ++ [Reply Status nothing_processed_text;
                  Reply Status
                    (failure_text
                       (str_of_exn (Collaborators := always_fails) e))])) /\
    (forall described, nothing_processed_text <> failure_text described).
Proof.
  apply (empty_result (C := always_fails) reliable [py "a"] Status []).
  - unfold len, MAX_QUERIES. simpl. lia.
  - reflexivity.
Defined.

(** C4, as stated, fails on one query whose lookup raises when the
    nothing-processed reply is lost to the network: the loop ends with
    nothing processed, the reply raises inside the outer [try], and the
    user is sent the failure message of the whole batch. *)
Lemma empty_result_reported_as_failure :
  processed (snd (fst (after_loop (C := always_fails) [py "a"] Status []))) = 0 /\
  reply nothing_processed_lost Status nothing_processed_text
  = Raise TelegramNetworkError /\
  process_queries_on (C := always_fails) nothing_processed_lost
    [py "a"] Status []
  = (Return None,
     [SearchXmlriver (py "a");
      Reply Status nothing_processed_text;
      Reply Status (failure_text [])]).
Proof. repeat split; vm_compute; reflexivity. Qed.

(** The loop on one query whose lookup raises ends with nothing processed. *)
Example empty_result_run :
  processed (snd (fst (after_loop (C := always_fails) [py "a"] Status []))) = 0.
Proof. reflexivity. Qed.

(** [report_encoding] on the batch of three queries whose second lookup
    raises. *)
Lemma report_encoding_witness :
  exists l body,
    after_loop (C := fails_at 2) three_queries Status []
    = (Return tt, l, snd three_report) /\
    Codec.utf_8_encode (output l) = Some body /\
    payload_of three_report = Codec.BOM_UTF8 ++ body /\
    firstn 3 (payload_of three_report) = [xef; xbb; xbf].
Proof.
  apply (report_encoding (C := fails_at 2) three_queries Status []
           (snd three_report) (payload_of three_report)).
  vm_compute. reflexivity.
Defined.

(** C5, as stated, fails on ten queries the first of which raises.  The
    tenth turn brings the processed count to 9 and edits the status message
    with the text for 10/10, which does not show 9/10. *)
Lemma progress_shows_position :
  processed (snd (fst after_nine_one_failed)) = 8 /\
  processed (snd (fst after_tenth_one_failed)) = 9 /\
  snd after_tenth_one_failed
  = snd after_nine_one_failed
    ++ [SearchXmlriver (py "q");
        EditText Status (py "⏳ Обработано 10/10 запросов...");
        Sleep SLEEP_BETWEEN_REQUESTS] /\
  progress_text 10 (len ten_queries) = py "⏳ Обработано 10/10 запросов..." /\
  contains (py "⏳ Обработано 10/10 запросов...")
           (str_of_int (processed (snd (fst after_tenth_one_failed)))
            ++ py "/" ++ str_of_int (len ten_queries)) = false.
Proof. repeat split; vm_compute; reflexivity. Qed.

(** C6 on the code.  One query whose lookup raises: the lookup is followed
    by the end of the batch, and no delay is taken. *)
Theorem no_delay_after_failed_lookup :
  process_queries (C := always_fails) [py "a"] Status []
  = (Return None,
     [SearchXmlriver (py "a"); Reply Status nothing_processed_text]) /\
  sleeps (snd (process_queries (C := always_fails) [py "a"] Status [])) = 0%nat.
Proof. split; vm_compute; reflexivity. Qed.

(** * The handler: attachment name and file size *)

Section HandlerClaims.

Context {xml : Type} `{C : Collaborators xml}.

(** C9, as the code has it.  Every document the handler sends is named
    [search_results_<n>_queries.csv] with [n] the number of queries the
    message submitted, and holds the payload [process_queries] returned
    for them. *)
Theorem attachment_name (message : Message) (r : result unit)
    (tr : list event) (f : str) (d : bytes) :
  handle_message message tt [] = (r, tt, tr) ->
  In (f, d) (documents tr) ->
  exists queries tr0 tr1,
    submitted message queries /\
    process_queries queries Status tr0 = (Return (Some d), tr1) /\
    f = report_filename (len queries).
Proof.
  assert (Hsent : forall queries tr0 r0 tr',
            documents tr0 = [] ->
            with_queries queries tt tr0 = (r0, tt, tr') ->
            In (f, d) (documents tr') ->
            exists tr1 tr2,
              process_queries queries Status tr1 = (Return (Some d), tr2) /\
              f = report_filename (len queries)).
  { intros queries tr0 r0 tr' H0 Hrun Hin.
    destruct (with_queries_documents queries tr0)
      as (r1 & tr1 & Hrun1 & [Hnone | (data & ta & tb & Hpq & Hdocs)]);
      rewrite Hrun in Hrun1; injection Hrun1 as <- <-.
    - rewrite Hnone, H0 in Hin. destruct Hin.
    - rewrite Hdocs, H0 in Hin. destruct Hin as [Heq | []].
      injection Heq as <- <-. exists ta, tb. split; [exact Hpq | reflexivity]. }
  assert (Hcatch : forall (r0 : result unit) tr0,
            documents (snd (match r0 with
                            | Return a => (Return a, tt, tr0)
                            | Raise e =>
                                (Return tt, tt,
                                 tr0 ++ [Reply Incoming unexpected_error_text])
                            end)) = documents tr0).
  { intros [a|e] tr0; cbn [snd]; [reflexivity|].
    rewrite documents_app. apply app_nil_r. }
  unfold handle_message, handle_message_on, try_except, Exception.
  change (with_queries_on reliable) with (with_queries (C := C)).
  change (extract_queries_from_file_on reliable)
    with (extract_queries_from_file (C := C)).
  unfold reliable, reply.
  destruct (is_plain_text (text message)) eqn:Hplain.
  - destruct (text message) as [s|] eqn:Htext; [|discriminate Hplain].
    destruct (with_queries (extract_queries_from_text s) tt [])
      as [[r0 []] tr0] eqn:Hrun.
    intros H Hin.
    assert (Htr : documents tr = documents tr0).
    { rewrite <- (Hcatch r0 tr0). destruct r0; injection H as <- <-;
        reflexivity. }
    rewrite Htr in Hin.
    destruct (Hsent _ [] _ _ eq_refl Hrun Hin) as (ta & tb & Hpq & Hf).
    exists (extract_queries_from_text s), ta, tb. split; [|split; assumption].
    left. split; [rewrite Htext; exact Hplain|].
    exists s. split; [exact Htext | reflexivity].
  - destruct (document message) as [doc|] eqn:Hdoc.
    + unfold bind.
      destruct (extract_queries_from_file_documents message [])
        as (q0 & tr0 & Hfile & Hdocs0).
      rewrite Hfile.
      destruct q0 as [qs|].
      * destruct (with_queries qs tt tr0) as [[r1 []] tr1] eqn:Hrun.
        intros H Hin.
        assert (Htr : documents tr = documents tr1).
        { rewrite <- (Hcatch r1 tr1). destruct r1; injection H as <- <-;
            reflexivity. }
        rewrite Htr in Hin.
        destruct (Hsent _ _ _ _ Hdocs0 Hrun Hin) as (ta & tb & Hpq & Hf).
        exists qs, ta, tb. split; [|split; assumption].
        right. split; [exact Hplain|]. exists tr0. exact Hfile.
      * unfold ret. intros H Hin. injection H as <- <-.
        rewrite Hdocs0 in Hin. destruct Hin.
    + cbn. intros H Hin. injection H as <- <-. destruct Hin.
Qed.

Lemma reply_texts_differ :
  file_too_large_text <> not_text_file_text /\
  file_too_large_text <> read_error_text /\
  file_too_large_text <> undecodable_text.
Proof.
  repeat split; intros H; apply (f_equal (firstn 3)) in H;
    vm_compute in H; discriminate H.
Qed.

(** C10, as the code has it.  Let the document declare no size, or the
    size 0.  Then the size check passes and no too-large reply is sent,
    whatever the length of the file.  If moreover the MIME type is
    [text/plain] or [application/octet-stream], the download is requested;
    and whatever bytes it gives are decoded with the candidate encodings
    and, when one of them fits, split into queries. *)
Theorem size_check_gap (message : Message) (doc : Document)
    (tr : list event) :
  document message = Some doc ->
  file_size doc = None \/ file_size doc = Some 0 ->
  over_size (file_size doc) = false /\
  (forall r u tr',
     extract_queries_from_file message tt [] = (r, u, tr') ->
     ~ In (Reply Incoming file_too_large_text) tr') /\
  (accepted_mime (mime_type doc) = true ->
   exists r rest,
     extract_queries_from_file message tt tr
     = (Return r, tt, tr ++ GetFile (file_id doc) :: rest) /\
     forall path data,
       get_file (file_id doc) = Return path ->
       download_file path = Return data ->
       r = option_map extract_queries_from_text (decode_with encodings data) /\
       rest = DownloadFile path
              :: match decode_with encodings data with
                 | Some _ => []
                 | None => [Reply Incoming undecodable_text]
                 end).
Proof.
  intros Hdoc Hsize.
  assert (Hover : over_size (file_size doc) = false)
    by (destruct Hsize as [-> | ->]; reflexivity).
  destruct reply_texts_differ as (Hmime & Hread & Hdecode).
  split; [exact Hover|].
  unfold extract_queries_from_file, extract_queries_from_file_on,
    try_except, bind, call, ret, Exception, reliable, reply, answer.
  rewrite Hdoc, Hover. split.
  - intros r u tr'.
    assert (Hnot : forall t, file_too_large_text <> t ->
              Reply Incoming t <> Reply Incoming file_too_large_text)
      by (intros t Ht Heq; apply Ht; congruence).
    destruct (negb (accepted_mime (mime_type doc))).
    { intros H. injection H as <- <- <-. cbn [In app].
      intros [Heq | []]. exact (Hnot _ Hmime Heq). }
    destruct (get_file (file_id doc)) as [path|e].
    2:{ intros H. injection H as <- <- <-. cbn [In app].
        intros [Heq | [Heq | []]];
          [discriminate Heq | exact (Hnot _ Hread Heq)]. }
    destruct (download_file path) as [data|e].
    2:{ intros H. injection H as <- <- <-. cbn [In app].
        intros [Heq | [Heq | [Heq | []]]];
          [discriminate Heq | discriminate Heq | exact (Hnot _ Hread Heq)]. }
    destruct (decode_with encodings data) as [content|];
      intros H; injection H as <- <- <-; cbn [In app].
    + intros [Heq | [Heq | []]]; discriminate Heq.
    + intros [Heq | [Heq | [Heq | []]]];
        [discriminate Heq | discriminate Heq | exact (Hnot _ Hdecode Heq)].
  - intros ->. cbn [negb].
    destruct (get_file (file_id doc)) as [path|e] eqn:Hpath.
    2:{ do 2 eexists. split;
          [rewrite <- app_assoc; reflexivity | intros ? ? H; discriminate H]. }
    destruct (download_file path) as [data|e] eqn:Hdata.
    2:{ do 2 eexists. split; [rewrite <- !app_assoc; reflexivity|].
        intros p d0 Hp Hd. injection Hp as <-. rewrite Hdata in Hd.
        discriminate Hd. }
    destruct (decode_with encodings data) as [content|] eqn:Hdec;
      do 2 eexists; (split; [rewrite <- !app_assoc; reflexivity|]);
      intros p d0 Hp Hd; injection Hp as <-; rewrite Hdata in Hd;
      injection Hd as <-; rewrite Hdec; split; reflexivity.
Qed.

End HandlerClaims.

(** [attachment_name] on the message of three lines: the document sent is
    named for 3 queries. *)
Lemma attachment_name_witness :
  exists queries tr0 tr1,
    submitted (C := fails_at 2) three_lines queries /\
    process_queries (C := fails_at 2) queries Status tr0
    = (Return (Some (payload_of three_report)), tr1) /\
    py "search_results_3_queries.csv" = report_filename (len queries).
Proof.
  apply (attachment_name (C := fails_at 2) three_lines
           (fst (fst three_lines_run)) (snd three_lines_run)
           (py "search_results_3_queries.csv") (payload_of three_report)).
  - vm_compute. reflexivity.
  - vm_compute. left. reflexivity.
Defined.

(** C9, as stated, fails on the message of three lines whose second lookup
    raises: two queries are processed, and the one document sent is named
    [search_results_3_queries.csv], which does not show 2. *)
Lemma filename_counts_submitted :
  extract_queries_from_text (py "a" ++ [LF] ++ py "b" ++ [LF] ++ py "c")
  = three_queries /\
  processed (snd (fst (after_loop (C := fails_at 2) three_queries Status []))) = 2 /\
  documents (snd three_lines_run)
  = [(py "search_results_3_queries.csv", payload_of three_report)] /\
  contains (py "search_results_3_queries.csv") (str_of_int 2) = false.
Proof. repeat split; vm_compute; reflexivity. Qed.

(** [size_check_gap] on a text file that declares the size 0: it is
    downloaded and its two lines are the queries. *)
Lemma size_check_gap_witness :
  over_size (file_size zero_sized_text) = false /\
  (forall r u tr',
     extract_queries_from_file (C := serving two_line_file)
       zero_sized_upload tt [] = (r, u, tr') ->
     ~ In (Reply Incoming file_too_large_text) tr') /\
  (accepted_mime (mime_type zero_sized_text) = true ->
   exists r rest,
     extract_queries_from_file (C := serving two_line_file)
       zero_sized_upload tt []
     = (Return r, tt, [] ++ GetFile (file_id zero_sized_text) :: rest) /\
     forall path data,
       get_file (Collaborators := serving two_line_file)
         (file_id zero_sized_text) = Return path ->
       download_file (Collaborators := serving two_line_file) path
       = Return data ->
       r = option_map extract_queries_from_text (decode_with encodings data) /\
       rest = DownloadFile path
              :: match decode_with encodings data with
                 | Some _ => []
                 | None => [Reply Incoming undecodable_text]
                 end).
Proof.
  apply (size_check_gap (C := serving two_line_file) zero_sized_upload
           zero_sized_text []).
  - reflexivity.
  - right. reflexivity.
Defined.

(** The extraction on the text file that declares the size 0. *)
Example zero_sized_run_value :
  zero_sized_run
  = (Return (Some [py "foo"; py "bar"]), tt,
     [GetFile (py "f2"); DownloadFile (py "documents/f2")]).
Proof. vm_compute. reflexivity. Qed.

(** C10, as stated, fails on a document that declares no size and the MIME
    type [image/png]: it is turned away as not a text file, and neither the
    file nor its path is requested. *)
Lemma unsized_not_downloaded :
  file_size {| file_id := py "f1"; file_size := None;
               mime_type := Some (py "image/png") |} = None /\
  extract_queries_from_file (C := always_fails) unsized_image tt []
  = (Return None, tt, [Reply Incoming not_text_file_text]).
Proof. split; vm_compute; reflexivity. Qed.

(** * Further properties of the extraction *)

Section ExtractMore.

Lemma lstrip_tight (s : str) : tight (lstrip s).
Proof.
  induction s as [|c s IH]; cbn; [exact I|].
  destruct (isspace c) eqn:Hc; [exact IH | exact Hc].
Qed.

Lemma lstrip_of_tight (s : str) : tight s -> lstrip s = s.
Proof. destruct s as [|c s]; cbn; [reflexivity|]. intros ->. reflexivity. Qed.

Lemma rstrip_tight (s : str) : tight s -> tight (rstrip s).
Proof.
  intros H. destruct (rstrip_split s) as (ws & _ & Hs).
  destruct (rstrip s) as [|c r]; [exact I|].
  rewrite Hs in H. exact H.
Qed.

Lemma strip_strip (s : str) : strip (strip s) = strip s.
Proof.
  unfold strip.
  rewrite (lstrip_of_tight (rstrip (lstrip s)))
    by apply rstrip_tight, lstrip_tight.
  unfold rstrip. rewrite rev_involutive.
  rewrite (lstrip_of_tight (lstrip (rev (lstrip s)))) by apply lstrip_tight.
  reflexivity.
Qed.

Lemma forallb_lstrip (p : codepoint -> bool) (s : str) :
  forallb p s = true -> forallb p (lstrip s) = true.
Proof.
  induction s as [|c s IH]; cbn; [reflexivity|].
  intros H. apply andb_true_iff in H as [Hc Hs].
  destruct (isspace c); [apply IH, Hs | cbn; rewrite Hc, Hs; reflexivity].
Qed.

Lemma forallb_rev (p : codepoint -> bool) (s : str) :
  forallb p (rev s) = forallb p s.
Proof.
  induction s as [|c s IH]; [reflexivity|].
  cbn. rewrite forallb_app, IH. cbn. rewrite andb_true_r. apply andb_comm.
Qed.

Lemma forallb_strip (p : codepoint -> bool) (s : str) :
  forallb p s = true -> forallb p (strip s) = true.
Proof.
  intros H. unfold strip, rstrip. rewrite forallb_rev.
  apply forallb_lstrip. rewrite forallb_rev. apply forallb_lstrip, H.
Qed.

(** No line of [splitlines] holds a line boundary. *)
Lemma splitlines_from_unbroken (s : str) :
  forall cur, unbroken cur = true ->
  Forall (fun l => unbroken l = true) (splitlines_from cur s).
Proof.
  assert (Hrev : forall cur, unbroken cur = true -> unbroken (rev cur) = true).
  { intros cur H. unfold unbroken. rewrite forallb_rev. exact H. }
  induction s as [|c s IH]; intros cur Hcur; cbn [splitlines_from].
  - destruct cur; constructor; [apply Hrev, Hcur | constructor].
  - destruct (islinebreak c) eqn:Hc.
    + destruct (c =? CR)%N;
        [destruct s as [|c' s']; [|destruct (N.eqb_spec c' LF) as [->|Hne]]|];
        constructor; try (apply Hrev, Hcur); try (apply IH; reflexivity).
      pose proof (IH [] eq_refl) as H. cbn in H. inversion H. assumption.
    + apply IH. cbn. rewrite Hc. exact Hcur.
Qed.

Lemma extract_as_queries (text : str) :
  extract_queries_from_text text = queries_from [] text.
Proof.
  unfold extract_queries_from_text.
  destruct text as [|c text]; [reflexivity|].
  cbn [truthy negb]. rewrite fold_extract_step. cbn [app].
  apply (queries_from_strip (c :: text)).
Qed.

Lemma clean_query_nonblank (q : str) : clean_query q -> nonblank q = true.
Proof. intros (Ht & Hs & _). unfold nonblank. rewrite Hs. exact Ht. Qed.

(** X1. Every query [extract_queries_from_text] returns is non-empty,
    trimmed (trimming it again changes nothing), does not begin with [#]
    and holds no line boundary.  So none of them is blank: the check at the
    top of the loop of [process_queries] skips no extracted query. *)
Theorem extracted_queries_clean (text : str) :
  Forall clean_query (extract_queries_from_text text) /\
  filter nonblank (extract_queries_from_text text)
  = extract_queries_from_text text.
Proof.
  assert (H : Forall clean_query (extract_queries_from_text text)).
  { rewrite extract_as_queries. unfold queries_from.
    apply Forall_forall. intros q Hq.
    apply filter_In in Hq as [Hin Hquery].
    apply in_map_iff in Hin as (line & <- & Hline).
    unfold is_query in Hquery. apply andb_true_iff in Hquery as [Ht Hc].
    repeat split.
    - exact Ht.
    - apply strip_strip.
    - apply negb_true_iff, Hc.
    - apply forallb_strip.
      pose proof (splitlines_from_unbroken text [] eq_refl) as Hall.
      rewrite Forall_forall in Hall. apply Hall, Hline. }
  split; [exact H|].
  induction H as [|q qs Hq _ IH]; [reflexivity|].
  cbn [filter]. rewrite (clean_query_nonblank q Hq), IH. reflexivity.
Qed.

Lemma queries_from_plain (c : codepoint) (s cur : str) :
  islinebreak c = false ->
  queries_from cur (c :: s) = queries_from (c :: cur) s.
Proof. intros H. unfold queries_from. cbn [splitlines_from]. rewrite H. reflexivity. Qed.

Lemma queries_from_feed (s : str) :
  queries_from [] (LF :: s) = queries_from [] s.
Proof. rewrite (queries_from_break LF s []) by reflexivity. reflexivity. Qed.

(** The queries of two texts set on consecutive lines. *)
Lemma queries_from_lines (a b : str) :
  forall cur,
  queries_from cur (a ++ LF :: b) = queries_from cur a ++ queries_from [] b.
Proof.
  induction a as [|c a IH]; intros cur.
  - cbn [app]. rewrite (queries_from_break LF b cur) by reflexivity.
    rewrite queries_from_nil. reflexivity.
  - cbn [app]. destruct (islinebreak c) eqn:Hc.
    + rewrite !queries_from_break by exact Hc. rewrite <- app_assoc. f_equal.
      destruct (c =? CR)%N; [|apply IH].
      destruct a as [|c' a']; cbn [app].
      * rewrite N.eqb_refl. reflexivity.
      * destruct (N.eqb_spec c' LF) as [->|Hne]; [|apply (IH [])].
        specialize (IH []). cbn [app] in IH.
        rewrite !queries_from_feed in IH. exact IH.
    + rewrite !queries_from_plain by exact Hc. apply IH.
Qed.

(** X2. Extraction works line by line: the queries of two texts joined by
    a line feed are the queries of the first followed by the queries of the
    second. *)
Theorem extract_queries_lines (a b : str) :
  extract_queries_from_text (a ++ LF :: b)
  = extract_queries_from_text a ++ extract_queries_from_text b.
Proof. rewrite !extract_as_queries. apply queries_from_lines. Qed.

(** A text without line boundary is one line. *)
Lemma splitlines_from_one_line (q : str) :
  unbroken q = true ->
  forall cur,
  splitlines_from cur q
  = match rev cur ++ q with [] => [] | _ :: _ => [rev cur ++ q] end.
Proof.
  induction q as [|c q IH]; intros Hq cur.
  - cbn [splitlines_from]. rewrite app_nil_r.
    destruct cur as [|c cur]; [reflexivity|].
    destruct (rev (c :: cur)) eqn:E; [|reflexivity].
    apply (f_equal (@List.length _)) in E. rewrite length_rev in E.
    discriminate E.
  - cbn in Hq. apply andb_true_iff in Hq as [Hc Hq].
    apply negb_true_iff in Hc. cbn [splitlines_from]. rewrite Hc.
    rewrite (IH Hq). cbn [rev]. rewrite <- app_assoc. reflexivity.
Qed.

Lemma extract_clean_query (q : str) :
  clean_query q -> extract_queries_from_text q = [q].
Proof.
  intros (Ht & Hs & Hc & Hu). rewrite extract_as_queries. unfold queries_from.
  rewrite (splitlines_from_one_line q Hu []). cbn [rev app].
  destruct q as [|c q]; [discriminate Ht|].
  cbn [map filter]. rewrite Hs. unfold is_query. rewrite Ht, Hc. reflexivity.
Qed.

Lemma extract_unlines_clean (queries : list str) :
  Forall clean_query queries ->
  extract_queries_from_text (unlines queries) = queries.
Proof.
  induction 1 as [|q qs Hq Hqs IH]; [reflexivity|].
  destruct qs as [|q' qs]; [apply extract_clean_query, Hq|].
  change (unlines (q :: q' :: qs)) with (q ++ LF :: unlines (q' :: qs)).
  rewrite extract_as_queries, queries_from_lines, <- !extract_as_queries.
  rewrite IH, (extract_clean_query q Hq). reflexivity.
Qed.

(** X3. Round trip: a list of clean queries typed one per line is
    extracted back as it is. *)
Theorem extract_unlines (queries : list str) :
  Forall clean_query queries ->
  extract_queries_from_text (unlines queries) = queries.
Proof. apply extract_unlines_clean. Qed.

End ExtractMore.

(** [extract_unlines] on two queries. *)
Lemma extract_unlines_witness :
  extract_queries_from_text (unlines [py "buy shoes"; py "rent a car"])
  = [py "buy shoes"; py "rent a car"].
Proof.
  apply (extract_unlines [py "buy shoes"; py "rent a car"]).
  repeat constructor; vm_compute; reflexivity.
Defined.

(** * Further properties of the batch *)

Section BatchMore.

Context {xml : Type} `{C : Collaborators xml}.

Lemma sleeps_app (a b : list event) : sleeps (a ++ b) = (sleeps a + sleeps b)%nat.
Proof. unfold sleeps. rewrite filter_app, length_app. reflexivity. Qed.

Lemma edits_app (a b : list event) : edits (a ++ b) = edits a ++ edits b.
Proof. apply flat_map_app. Qed.

Ltac unfold_body :=
  unfold for_body, try_except, bind, call, lift, gets, modify, ret, writerow,
    Exception.

Ltac close_count :=
  eexists; eexists; split;
  [rewrite <- ?app_assoc; reflexivity
  |cbn; repeat split; try reflexivity; try lia; auto].

(** How one turn counts: at most one lookup, the processed count raised by
    at most one and only after a lookup, a delay only when it was raised, a
    status edit only at a multiple of 10. *)
Lemma for_body_counts (T : Z) (m : target) (i : Z) (q : str)
    (l : locals) (tr : list event) :
  exists l' evs,
    for_body T m i q l tr = (Return tt, l', tr ++ evs) /\
    Z.of_nat (sleeps evs) <= processed l' - processed l /\
    processed l' - processed l <= Z.of_nat (List.length (searches evs)) /\
    Z.of_nat (List.length (searches evs)) <= 1 /\
    (edits evs = [] \/ i mod 10 = 0 /\ edits evs = [progress_text i T]).
Proof.
  destruct l as [out w hw n]. unfold_body.
  destruct (truthy (strip q)); cbn;
    [|exists {| output := out; writer := w; header_written := hw;
                processed := n |}, [];
      rewrite app_nil_r; cbn; repeat split; try lia; auto].
  destruct (search_xmlriver i (strip q)) as [x|e]; cbn; [|close_count].
  destruct hw; cbn.
  - destruct (get_row x (strip q)) as [r|e]; cbn; [|close_count].
    destruct w; cbn; [|close_count].
    destruct (Z.eqb_spec (i mod 10) 0) as [Hi|Hi]; cbn;
      [destruct (edit_text i (progress_text i T)) as [[]|[]]; cbn|];
      close_count.
  - destruct (get_header x) as [h|e]; cbn; [|close_count].
    destruct (get_row x (strip q)) as [r|e]; cbn; [|close_count].
    destruct (Z.eqb_spec (i mod 10) 0) as [Hi|Hi]; cbn;
      [destruct (edit_text i (progress_text i T)) as [[]|[]]; cbn|];
      close_count.
Qed.

Lemma edit_step (i : Z) :
  1 <= i -> (if i mod 10 =? 0 then 1 else 0) = i / 10 - (i - 1) / 10.
Proof.
  intros Hi. destruct (Z.eqb_spec (i mod 10) 0);
    Z.to_euclidean_division_equations; lia.
Qed.

(** How the loop counts, from position [i] on. *)
Lemma for_queries_counts (T : Z) (m : target) (queries : list str) :
  forall (i : Z) (l : locals) (tr : list event),
  1 <= i ->
  exists l' evs,
    for_queries T m i queries l tr = (Return tt, l', tr ++ evs) /\
    Z.of_nat (sleeps evs) <= processed l' - processed l /\
    processed l' - processed l <= Z.of_nat (List.length (searches evs)) /\
    Z.of_nat (List.length (searches evs)) <= len queries /\
    Forall (fun t => exists j, i <= j < i + len queries /\ j mod 10 = 0 /\
                               t = progress_text j T) (edits evs) /\
    Z.of_nat (List.length (edits evs))
    <= (i + len queries - 1) / 10 - (i - 1) / 10.
Proof.
  induction queries as [|q rest IH]; intros i l tr Hi.
  - exists l, []. rewrite app_nil_r. change (len (@nil str)) with 0. cbn.
    repeat split; try lia; [constructor|].
    replace (i + 0 - 1) with (i - 1) by lia. lia.
  - destruct (for_body_counts T m i q l tr)
      as (l1 & ev1 & Hrun1 & Hs1 & Hp1 & Hn1 & He1).
    destruct (IH (i + 1) l1 (tr ++ ev1) ltac:(lia))
      as (l2 & ev2 & Hrun2 & Hs2 & Hp2 & Hn2 & Hall2 & He2).
    exists l2, (ev1 ++ ev2). cbn [for_queries]. unfold bind.
    rewrite Hrun1, Hrun2, app_assoc.
    rewrite sleeps_app, searches_app, edits_app, !length_app, len_cons.
    split; [reflexivity|]. repeat split; try lia.
    + apply Forall_app. split.
      * destruct He1 as [-> | [Hmod ->]]; [constructor|].
        constructor; [|constructor]. exists i.
        pose proof (Zle_0_nat (List.length rest)). unfold len.
        repeat split; try lia.
      * eapply Forall_impl; [|exact Hall2].
        intros t (j & Hj & Hmod & ->). exists j. repeat split; try lia.
    + pose proof (edit_step i Hi) as Hstep.
      assert (Hone : Z.of_nat (List.length (edits ev1))
                     <= if i mod 10 =? 0 then 1 else 0).
      { destruct He1 as [-> | [Hmod ->]]; cbn.
        - destruct (i mod 10 =? 0); lia.
        - rewrite Hmod. cbn. lia. }
      replace (i + (1 + len rest) - 1) with (i + 1 + len rest - 1) by lia.
      replace (i + 1 - 1) with i in He2 by lia. lia.
Qed.

(** X4. Pacing and counting never overshoot: in any batch, whatever the
    collaborators do, the loop ends with no more delays than processed
    queries, no more processed queries than lookups, and no more lookups than
    queries. *)
Theorem batch_counts (queries : list str) (m : target) (tr : list event) :
  exists l evs,
    after_loop queries m tr = (Return tt, l, tr ++ evs) /\
    0 <= Z.of_nat (sleeps evs) <= processed l /\
    processed l <= Z.of_nat (List.length (searches evs)) <= len queries.
Proof.
  destruct (for_queries_counts (len queries) m queries 1 initial tr ltac:(lia))
    as (l & evs & Hrun & Hs & Hp & Hn & _).
  exists l, evs. cbn [processed initial] in *.
  split; [exact Hrun|]. lia.
Qed.

(** X5. Cadence of the status edits: in any batch every status edit of the
    loop carries the progress text of a position that is a multiple of 10
    within the batch, with the batch length as total; so the loop edits the
    status message at most [len(queries) // 10] times, and never in a batch
    of fewer than ten queries. *)
Theorem status_edit_cadence (queries : list str) (m : target)
    (tr : list event) :
  exists l evs,
    after_loop queries m tr = (Return tt, l, tr ++ evs) /\
    Forall (fun t => exists j, 1 <= j <= len queries /\ j mod 10 = 0 /\
                               t = progress_text j (len queries)) (edits evs) /\
    Z.of_nat (List.length (edits evs)) <= len queries / 10 /\
    (len queries < 10 -> edits evs = []).
Proof.
  destruct (for_queries_counts (len queries) m queries 1 initial tr ltac:(lia))
    as (l & evs & Hrun & _ & _ & _ & Hall & He).
  exists l, evs. split; [exact Hrun|].
  replace (1 + len queries - 1) with (len queries) in He by lia.
  change ((1 - 1) / 10) with 0 in He. rewrite Z.sub_0_r in He.
  repeat split.
  - eapply Forall_impl; [|exact Hall].
    intros t (j & Hj & Hmod & ->). exists j. repeat split; try lia.
  - exact He.
  - intros Hsmall. pose proof (Zle_0_nat (List.length queries)).
    rewrite Z.div_small in He by (unfold len in *; lia).
    destruct (edits evs); [reflexivity | cbn in He; lia].
Qed.

(** What [process_queries] leaves of a trace once the loop has run: the
    trace of the loop, and at most one reply. *)
Lemma process_queries_tail (queries : list str) (m : target)
    (tr tr1 : list event) (l : locals) :
  Organic = Return tt ->
  len queries <= MAX_QUERIES ->
  after_loop queries m tr = (Return tt, l, tr1) ->
  exists text,
    snd (process_queries queries m tr) = tr1 \/
    snd (process_queries queries m tr) = tr1 ++ [Reply m text].
Proof.
  intros Hnew Hle Hrun.
  rewrite (process_queries_after_loop _ _ _ _ _ Hnew Hle Hrun).
  destruct (processed l =? 0); [eexists; right; reflexivity|].
  destruct (negb (truthy (output l))); [exists []; left; reflexivity|].
  destruct (Codec.utf_8_sig_encode (output l));
    [exists []; left; reflexivity | eexists; right; reflexivity].
Qed.

Lemma lookups_aux (queries : list str) (m : target) (tr : list event) :
  len queries <= MAX_QUERIES ->
  Organic = Return tt ->
  searches (snd (process_queries queries m tr))
  = searches tr ++ map strip (filter nonblank queries).
Proof.
  intros Hle Hnew.
  destruct (after_loop_run queries m tr) as (l & tr1 & Hrun & _ & _ & Hs).
  destruct (process_queries_tail _ _ _ _ _ Hnew Hle Hrun) as (text & [-> | ->]).
  - exact Hs.
  - rewrite searches_app. cbn. rewrite app_nil_r. exact Hs.
Qed.

(** X6. No retry, no abort, for any behaviour of the collaborators: within
    the ceiling and once the client is made, [process_queries] looks up
    every query that is not blank, trimmed, exactly once and in input
    order, whichever lookups raise. *)
Theorem lookups_once_in_order (queries : list str) (m : target)
    (tr : list event) :
  len queries <= MAX_QUERIES ->
  Organic = Return tt ->
  searches (snd (process_queries queries m tr))
  = searches tr ++ map strip (filter nonblank queries).
Proof. apply lookups_aux. Qed.

(** When the client cannot be made, the failure is reported and nothing is
    looked up. *)
Lemma process_queries_no_client (queries : list str) (m : target)
    (tr : list event) (e : exn) :
  len queries <= MAX_QUERIES ->
  Organic = Raise e ->
  process_queries queries m tr
  = (Return None, tr ++ [Reply m (failure_text (str_of_exn e))]).
Proof.
  intros Hle Hnew. rewrite process_queries_eq.
  destruct (Z.gtb_spec (len queries) MAX_QUERIES) as [Hgt|_]; [lia|].
  unfold batch, batch_on, try_except, bind, lift, call, ret, Exception,
    reliable, reply, answer.
  rewrite Hnew. reflexivity.
Qed.

(** X7. A bound on the external lookups: whatever the batch and the
    collaborators, one call of [process_queries] makes at most 10000
    lookups. *)
Theorem lookups_bounded (queries : list str) (m : target) (tr : list event) :
  Z.of_nat (List.length (searches (snd (process_queries queries m tr))))
  <= Z.of_nat (List.length (searches tr)) + MAX_QUERIES.
Proof.
  destruct (Z.le_gt_cases (len queries) MAX_QUERIES) as [Hle|Hgt].
  - destruct Organic as [[]|e] eqn:Hnew.
    + rewrite (lookups_aux queries m tr Hle Hnew).
      rewrite length_app, length_map, Nat2Z.inj_add.
      pose proof (filter_length_le nonblank queries). unfold len in Hle. lia.
    + rewrite (process_queries_no_client _ _ _ _ Hle Hnew). cbn [snd].
      rewrite searches_app. cbn. rewrite app_nil_r. unfold MAX_QUERIES. lia.
  - rewrite process_queries_eq.
    destruct (Z.gtb_spec (len queries) MAX_QUERIES) as [_|Hle]; [|lia].
    cbn [snd]. rewrite searches_app. cbn. rewrite app_nil_r.
    unfold MAX_QUERIES. lia.
Qed.

(** X8. A client that cannot be made aborts the batch: the exception of
    [organic_ya.Organic()] is caught by the outer handler, the failure
    message with its text is the only event, no lookup is made and [None]
    is returned. *)
Theorem client_failure_aborts (queries : list str) (m : target)
    (tr : list event) (e : exn) :
  len queries <= MAX_QUERIES ->
  Organic = Raise e ->
  process_queries queries m tr
  = (Return None, tr ++ [Reply m (failure_text (str_of_exn e))]) /\
  searches (snd (process_queries queries m tr)) = searches tr.
Proof.
  intros Hle Hnew. rewrite (process_queries_no_client _ _ _ _ Hle Hnew).
  split; [reflexivity|]. cbn [snd]. rewrite searches_app. cbn.
  apply app_nil_r.
Qed.

(** A row is written only below a header. *)
Lemma written_rows_header (queries : list str) :
  forall i, written_rows false i queries <> [] ->
  exists h, first_header i queries = Some h.
Proof.
  induction queries as [|q rest IH]; intros i H; [contradiction H; reflexivity|].
  cbn [written_rows first_header] in *.
  destruct (header_of i q) as [h|]; [exists h; reflexivity|].
  cbn [is_some orb app] in H. apply IH, H.
Qed.

Lemma record_truthy (r : row) (rest : str) : truthy (Csv.record r ++ rest) = true.
Proof.
  assert (H : exists body, Csv.record r = body ++ Csv.lineterminator).
  { unfold Csv.record. destruct r as [|[|c f] [|f' r']]; eexists;
      try reflexivity. }
  destruct H as [body ->]. destruct body; reflexivity.
Qed.

Lemma rows_under_header_aux (queries : list str) (m : target)
    (tr tr1 : list event) (l : locals) :
  after_loop queries m tr = (Return tt, l, tr1) ->
  processed l <> 0 ->
  exists h rows,
    output l = Csv.record h ++ flat_map Csv.record rows /\
    len rows = processed l.
Proof.
  intros Hrun Hn.
  destruct (after_loop_run queries m tr) as (l' & tr' & Hrun' & Hout & Hp & _).
  rewrite Hrun in Hrun'. injection Hrun' as <- <-.
  destruct (written_rows_header queries 1) as [h Hh].
  { intros E. rewrite E in Hp. apply Hn. exact Hp. }
  exists h, (written_rows false 1 queries). split; [|symmetry; exact Hp].
  rewrite Hout. unfold header_text. rewrite Hh. reflexivity.
Qed.

(** X9. No row without a header: whenever the loop ends with something
    processed, the CSV text is one header line followed by exactly
    [processed] rows, whatever the collaborators did. *)
Theorem rows_under_header (queries : list str) (m : target)
    (tr tr1 : list event) (l : locals) :
  after_loop queries m tr = (Return tt, l, tr1) ->
  processed l <> 0 ->
  exists h rows,
    output l = Csv.record h ++ flat_map Csv.record rows /\
    len rows = processed l.
Proof. apply rows_under_header_aux. Qed.

(** X10. Once something is processed the outcome only depends on the
    encoding: the payload is returned when the CSV text encodes, and when it
    does not (a lone surrogate in a cell) the batch is aborted with the
    failure message.  The return on empty content, line 121, is never
    taken. *)
Theorem report_outcome (queries : list str) (m : target)
    (tr tr1 : list event) (l : locals) :
  len queries <= MAX_QUERIES ->
  Organic = Return tt ->
  after_loop queries m tr = (Return tt, l, tr1) ->
  processed l <> 0 ->
  truthy (output l) = true /\
  process_queries queries m tr
  = match Codec.utf_8_encode (output l) with
    | Some body => (Return (Some (Codec.BOM_UTF8 ++ body)), tr1)
    | None =>
        (Return None,
         tr1 ++ [Reply m (failure_text (str_of_exn UnicodeEncodeError))])
    end.
Proof.
  intros Hle Hnew Hrun Hn.
  destruct (rows_under_header_aux _ _ _ _ _ Hrun Hn) as (h & rows & Hout & _).
  assert (Ht : truthy (output l) = true)
    by (rewrite Hout; apply record_truthy).
  split; [exact Ht|].
  rewrite (process_queries_after_loop _ _ _ _ _ Hnew Hle Hrun), Ht.
  destruct (Z.eqb_spec (processed l) 0) as [E|_]; [contradiction|].
  cbn [negb]. unfold Codec.utf_8_sig_encode.
  destruct (Codec.utf_8_encode (output l)); reflexivity.
Qed.

Ltac close_pace :=
  eexists; eexists; split;
  [rewrite <- ?app_assoc; reflexivity | cbn; lia].

(** With harmless status edits a turn takes the delay exactly when it
    raises the processed count. *)
Lemma for_body_paced (T : Z) (m : target) (i : Z) (q : str)
    (l : locals) (tr : list event) :
  edit_harmless ->
  exists l' evs,
    for_body T m i q l tr = (Return tt, l', tr ++ evs) /\
    Z.of_nat (sleeps evs) = processed l' - processed l.
Proof.
  intros Hedit. destruct l as [out w hw n]. unfold_body.
  destruct (truthy (strip q)); cbn;
    [|exists {| output := out; writer := w; header_written := hw;
                processed := n |}, [];
      rewrite app_nil_r; cbn; split; [reflexivity | lia]].
  destruct (search_xmlriver i (strip q)) as [x|e]; cbn; [|close_pace].
  pose proof (Hedit i (progress_text i T)) as Hi.
  destruct hw; cbn.
  - destruct (get_row x (strip q)) as [r|e]; cbn; [|close_pace].
    destruct w; cbn; [|close_pace].
    destruct (i mod 10 =? 0); cbn;
      [destruct (edit_text i (progress_text i T)) as [[]|[]]; cbn;
       try discriminate Hi|];
      close_pace.
  - destruct (get_header x) as [h|e]; cbn; [|close_pace].
    destruct (get_row x (strip q)) as [r|e]; cbn; [|close_pace].
    destruct (i mod 10 =? 0); cbn;
      [destruct (edit_text i (progress_text i T)) as [[]|[]]; cbn;
       try discriminate Hi|];
      close_pace.
Qed.

Lemma for_queries_paced (T : Z) (m : target) (queries : list str) :
  edit_harmless ->
  forall (i : Z) (l : locals) (tr : list event),
  exists l' evs,
    for_queries T m i queries l tr = (Return tt, l', tr ++ evs) /\
    Z.of_nat (sleeps evs) = processed l' - processed l.
Proof.
  intros Hedit. induction queries as [|q rest IH]; intros i l tr.
  - exists l, []. rewrite app_nil_r. cbn. split; [reflexivity | lia].
  - destruct (for_body_paced T m i q l tr Hedit) as (l1 & ev1 & Hrun1 & Hs1).
    destruct (IH (i + 1) l1 (tr ++ ev1)) as (l2 & ev2 & Hrun2 & Hs2).
    exists l2, (ev1 ++ ev2). cbn [for_queries]. unfold bind.
    rewrite Hrun1, Hrun2, app_assoc, sleeps_app.
    split; [reflexivity | lia].
Qed.

(** X11. The status edit that raises [TelegramBadRequest] is harmless: as
    long as the status edits only return or raise that exception, every
    processed query is followed by its delay, so the loop takes exactly as
    many delays as it processes queries. *)
Theorem delays_match_processed (queries : list str) (m : target)
    (tr : list event) :
  edit_harmless ->
  exists l evs,
    after_loop queries m tr = (Return tt, l, tr ++ evs) /\
    Z.of_nat (sleeps evs) = processed l.
Proof.
  intros Hedit.
  destruct (for_queries_paced (len queries) m queries Hedit 1 initial tr)
    as (l & evs & Hrun & Hs).
  exists l, evs. split; [exact Hrun|]. cbn [processed initial] in Hs. lia.
Qed.




End BatchMore.

Section SourceOnly.

Context {xml : Type}.

Variables C1 C2 : Collaborators xml.
Hypothesis Hsame : same_source C1 C2.

Lemma looked_up_same (i : Z) (q : str) :
  looked_up (C := C1) i q = looked_up (C := C2) i q.
Proof.
  destruct Hsame as (Hs & _). unfold looked_up. rewrite Hs. reflexivity.
Qed.

Lemma header_of_same (i : Z) (q : str) :
  header_of (C := C1) i q = header_of (C := C2) i q.
Proof.
  destruct Hsame as (_ & Hh & _). unfold header_of.
  rewrite looked_up_same. destruct (looked_up i q); [rewrite Hh|]; reflexivity.
Qed.

Lemma row_of_same (i : Z) (q : str) :
  row_of (C := C1) i q = row_of (C := C2) i q.
Proof.
  destruct Hsame as (_ & _ & Hr). unfold row_of.
  rewrite looked_up_same. destruct (looked_up i q); [rewrite Hr|]; reflexivity.
Qed.

Lemma written_rows_same (queries : list str) :
  forall hw i,
  written_rows (C := C1) hw i queries = written_rows (C := C2) hw i queries.
Proof.
  induction queries as [|q rest IH]; intros hw i; [reflexivity|].
  cbn [written_rows]. rewrite header_of_same, row_of_same, IH. reflexivity.
Qed.

Lemma first_header_same (queries : list str) :
  forall i,
  first_header (C := C1) i queries = first_header (C := C2) i queries.
Proof.
  induction queries as [|q rest IH]; intros i; [reflexivity|].
  cbn [first_header]. rewrite header_of_same, IH. reflexivity.
Qed.

Lemma locals_after_same (queries : list str) (m1 m2 : target)
    (tr1 tr2 : list event) :
  locals_after (C := C1) queries m1 tr1
  = locals_after (C := C2) queries m2 tr2.
Proof.
  unfold locals_after, after_loop.
  destruct (for_queries_run (C := C1) (len queries) m1 queries 1 initial tr1
              writer_ready_initial)
    as (l1 & t1 & -> & Hw1 & Hh1 & Ho1 & Hp1 & _).
  destruct (for_queries_run (C := C2) (len queries) m2 queries 1 initial tr2
              writer_ready_initial)
    as (l2 & t2 & -> & Hw2 & Hh2 & Ho2 & Hp2 & _).
  cbn [fst snd]. unfold writer_ready, header_text in *.
  rewrite written_rows_same, first_header_same in *.
  destruct l1 as [o1 w1 h1 p1], l2 as [o2 w2 h2 p2].
  cbn [output writer header_written processed] in *.
  congruence.
Qed.

End SourceOnly.

(** X13. The report does not depend on the status edits: two runs whose
    Result Row Source answers alike end the loop with the same CSV text and
    the same processed count, whatever the status edits do in either (return,
    [TelegramBadRequest], any other exception).  A status edit that fails
    after a row was written loses neither the row nor its count. *)
Theorem report_ignores_status_edits {xml : Type} (C1 C2 : Collaborators xml)
    (queries : list str) (m1 m2 : target) (tr1 tr2 : list event) :
  same_source C1 C2 ->
  locals_after (C := C1) queries m1 tr1 = locals_after (C := C2) queries m2 tr2.
Proof. intros H. apply locals_after_same, H. Qed.

(** * The codecs: decoding reads back what encoding wrote *)

Section CodecFacts.

Import Codec.

Ltac div_lia := zify; Z.to_euclidean_division_equations; lia.

Lemma some_eq {A} (a b : A) : Some a = Some b -> a = b.
Proof. congruence. Qed.

Lemma to_N_byte_of_N (n : N) : (n < 256)%N -> Byte.to_N (byte_of_N n) = n.
Proof.
  intros H. unfold byte_of_N.
  destruct (Byte.of_N n) as [b|] eqn:E.
  - apply Byte.to_of_N in E. exact E.
  - apply Byte.of_N_None_iff in E. lia.
Qed.

Lemma payload_mod (b : N) : payload b = (b mod 64)%N.
Proof. unfold payload. change 63%N with (N.ones 6). apply N.land_ones. Qed.

Lemma land_31 (b : N) : N.land b 31 = (b mod 32)%N.
Proof. change 31%N with (N.ones 5). apply N.land_ones. Qed.

Lemma land_15 (b : N) : N.land b 15 = (b mod 16)%N.
Proof. change 15%N with (N.ones 4). apply N.land_ones. Qed.

Lemma land_7 (b : N) : N.land b 7 = (b mod 8)%N.
Proof. change 7%N with (N.ones 3). apply N.land_ones. Qed.

Ltac decide_test :=
  match goal with
  | |- context [(?a <? ?b)%N] =>
      first [ replace (a <? b)%N with true by (symmetry; apply N.ltb_lt; div_lia)
            | replace (a <? b)%N with false by (symmetry; apply N.ltb_ge; div_lia) ]
  | |- context [(?a <=? ?b)%N] =>
      first [ replace (a <=? b)%N with true by (symmetry; apply N.leb_le; div_lia)
            | replace (a <=? b)%N with false by (symmetry; apply N.leb_gt; div_lia) ]
  | |- context [(?a =? ?b)%N] =>
      first [ replace (a =? b)%N with true by (symmetry; apply N.eqb_eq; div_lia)
            | replace (a =? b)%N with false by (symmetry; apply N.eqb_neq; div_lia) ]
  end; cbv beta match.

Ltac split_tests :=
  repeat decide_test;
  repeat (match goal with
          | |- context [(?a =? ?b)%N] => destruct (N.eqb_spec a b)
          end; repeat decide_test).

(** Decoding reads back the bytes of one code point. *)
Lemma utf_8_decode_encode_cp (c : codepoint) (bs : bytes) (rest : list N) :
  utf_8_encode_cp c = Some bs ->
  utf_8_decode_N (map Byte.to_N bs ++ rest)
  = option_map (cons c) (utf_8_decode_N rest).
Proof.
  unfold utf_8_encode_cp, in_range.
  destruct (N.ltb_spec c 128) as [H1|H1].
  { intros H; apply some_eq in H; subst bs. cbn [map app utf_8_decode_N].
    rewrite to_N_byte_of_N by lia. split_tests. reflexivity. }
  destruct (N.ltb_spec c 2048) as [H2|H2].
  { intros H; apply some_eq in H; subst bs. cbn [map app utf_8_decode_N].
    rewrite !to_N_byte_of_N by div_lia.
    unfold in_range, is_cont.
    split_tests. cbn [andb].
    rewrite ?land_31, ?land_15, ?land_7, ?payload_mod. f_equal. f_equal.
    div_lia. }
  destruct (N.ltb_spec c 65536) as [H3|H3].
  { destruct (N.leb_spec 55296 c) as [Hs|Hs];
      [destruct (N.leb_spec c 57343) as [Hs'|Hs']; [discriminate|]|];
      cbn [andb]; intros H; apply some_eq in H; subst bs;
      cbn [map app utf_8_decode_N];
      rewrite !to_N_byte_of_N by div_lia;
      unfold in_range, is_cont;
      split_tests; cbn [andb];
      rewrite ?land_31, ?land_15, ?land_7, ?payload_mod; f_equal; f_equal;
      div_lia. }
  destruct (N.ltb_spec c 1114112) as [H4|H4]; [|discriminate].
  intros H; apply some_eq in H; subst bs. cbn [map app utf_8_decode_N].
  rewrite !to_N_byte_of_N by div_lia.
  unfold in_range, is_cont.
  split_tests; cbn [andb];
    rewrite ?land_31, ?land_15, ?land_7, ?payload_mod; f_equal; f_equal;
    div_lia.
Qed.

Lemma option_map_cons_app (c : codepoint) (s : str) (o : option str) :
  option_map (cons c) (option_map (app s) o) = option_map (app (c :: s)) o.
Proof. destruct o; reflexivity. Qed.

Lemma utf_8_decode_encode_N (s : str) :
  forall data rest,
  utf_8_encode s = Some data ->
  utf_8_decode_N (map Byte.to_N data ++ rest)
  = option_map (app s) (utf_8_decode_N rest).
Proof.
  induction s as [|c s IH]; intros data rest H; cbn [utf_8_encode] in H.
  - apply some_eq in H. subst data. cbn. destruct (utf_8_decode_N rest);
      reflexivity.
  - destruct (utf_8_encode_cp c) as [b|] eqn:Hc; [|discriminate H].
    destruct (utf_8_encode s) as [bs|] eqn:Hs; [|discriminate H].
    apply some_eq in H. subst data.
    rewrite map_app, <- app_assoc, (utf_8_decode_encode_cp c b _ Hc).
    rewrite (IH bs rest eq_refl). apply option_map_cons_app.
Qed.

(** The UTF-8 decoder reads back what the encoder wrote. *)
Lemma utf_8_round_trip (s : str) (data : bytes) :
  utf_8_encode s = Some data -> utf_8_decode data = Some s.
Proof.
  intros H. unfold utf_8_decode.
  rewrite <- (app_nil_r (map Byte.to_N data)), (utf_8_decode_encode_N s _ [] H).
  cbn. rewrite app_nil_r. reflexivity.
Qed.

(** The first candidate takes the marker for the character U+FEFF. *)
Lemma utf_8_decode_marker (data : bytes) :
  utf_8_decode (BOM_UTF8 ++ data)
  = option_map (cons BOM_CHAR) (utf_8_decode data).
Proof. reflexivity. Qed.

Lemma utf_8_sig_decode_marker (data : bytes) :
  utf_8_sig_decode (BOM_UTF8 ++ data) = utf_8_decode data.
Proof. reflexivity. Qed.

End CodecFacts.

(** * Further properties of the decoding loop and of the file extraction *)

Section DecodeFacts.

Import Codec.

(** What [utf-8] refuses, [utf-8-sig] refuses too. *)
Lemma utf_8_sig_decode_none (data : bytes) :
  utf_8_decode data = None -> utf_8_sig_decode data = None.
Proof.
  intros H.
  destruct data as [|b0 data]; [exact H|].
  destruct b0; try exact H.
  destruct data as [|b1 data]; [exact H|].
  destruct b1; try exact H.
  destruct data as [|b2 data]; [exact H|].
  destruct b2; try exact H.
  change (utf_8_decode (BOM_UTF8 ++ data) = None) in H.
  rewrite utf_8_decode_marker in H.
  change (utf_8_decode data = None).
  destruct (utf_8_decode data); [discriminate H | reflexivity].
Qed.

Lemma cp1251_decode_byte_none (b : byte) :
  cp1251_decode_byte (Byte.to_N b) = None <-> b = x98.
Proof. destruct b; vm_compute; split; intros H; congruence. Qed.

(** [cp1251] refuses a text exactly when it holds the byte 0x98. *)
Lemma cp1251_decode_none (data : bytes) :
  cp1251_decode data = None <-> In x98 data.
Proof.
  unfold cp1251_decode. induction data as [|b data IH]; cbn [map cp1251_decode_N].
  - split; [discriminate | intros []].
  - destruct (cp1251_decode_byte (Byte.to_N b)) as [c|] eqn:Hb.
    + destruct (cp1251_decode_N (map Byte.to_N data)) as [s|].
      * split; [discriminate|]. intros [Hx | Hin].
        -- subst b. vm_compute in Hb. discriminate Hb.
        -- apply IH in Hin. discriminate Hin.
      * split; [intros _; right; apply IH; reflexivity | reflexivity].
    + apply cp1251_decode_byte_none in Hb. subst b.
      split; [intros _; left; reflexivity | reflexivity].
Qed.

(** [cp1251] gives one character for every byte. *)
Lemma cp1251_decode_length (data : bytes) :
  forall s, cp1251_decode data = Some s -> List.length s = List.length data.
Proof.
  unfold cp1251_decode. induction data as [|b data IH]; intros s H;
    cbn [map cp1251_decode_N] in H.
  - apply some_eq in H. subst s. reflexivity.
  - destruct (cp1251_decode_byte (Byte.to_N b)) as [c|]; [|discriminate H].
    destruct (cp1251_decode_N (map Byte.to_N data)) as [s'|]; [|discriminate H].
    apply some_eq in H. subst s. cbn. f_equal. apply IH. reflexivity.
Qed.

Lemma decode_with_two (data : bytes) :
  decode_with encodings data
  = match utf_8_decode data with
    | Some content => Some content
    | None => cp1251_decode data
    end.
Proof.
  unfold encodings. cbn [decode_with].
  destruct (utf_8_decode data) as [content|] eqn:H8; [reflexivity|].
  rewrite (utf_8_sig_decode_none data H8).
  destruct (cp1251_decode data); reflexivity.
Qed.

(** X14. Of the four encodings tried, only two ever decide: a file is read
    as [utf-8] when it is valid UTF-8 and as [windows-1251] otherwise; the
    candidates [utf-8-sig] and [cp1251] never give a content the earlier
    ones refused. *)
Theorem two_candidates_decide (data : bytes) :
  decode_with encodings data
  = decode_with [utf_8_decode; cp1251_decode] data.
Proof.
  rewrite decode_with_two. cbn [decode_with].
  destruct (utf_8_decode data); [reflexivity|].
  destruct (cp1251_decode data); reflexivity.
Qed.

(** X15. The decoding loop gives up exactly on the files that are not
    valid UTF-8 and hold the byte 0x98, the one byte [windows-1251] leaves
    undefined. *)
Theorem undecodable_iff (data : bytes) :
  decode_with encodings data = None
  <-> utf_8_decode data = None /\ In x98 data.
Proof.
  rewrite decode_with_two, <- cp1251_decode_none.
  destruct (utf_8_decode data); split.
  - discriminate.
  - intros [H _]. discriminate H.
  - intros H. split; [reflexivity | exact H].
  - intros [_ H]. exact H.
Qed.

(** X16. Legacy fallback: a file that is not valid UTF-8 and holds no byte
    0x98 is always decoded, as [windows-1251], one character for each
    byte. *)
Theorem legacy_fallback (data : bytes) :
  utf_8_decode data = None ->
  ~ In x98 data ->
  exists content,
    decode_with encodings data = Some content /\
    cp1251_decode data = Some content /\
    List.length content = List.length data.
Proof.
  intros H8 Hno. rewrite decode_with_two, H8.
  destruct (cp1251_decode data) as [content|] eqn:Hc.
  - exists content. repeat split. apply cp1251_decode_length, Hc.
  - apply cp1251_decode_none in Hc. contradiction.
Qed.

(** X17. The byte-order marker of an uploaded file is not removed: a file
    that is UTF-8 behind the marker is taken by the first candidate,
    [utf-8], which keeps the marker as the character U+FEFF in front of the
    text.  That character is no blank, so it stays on the first line. *)
Theorem marker_kept (data : bytes) (content : str) :
  utf_8_decode data = Some content ->
  decode_with encodings (BOM_UTF8 ++ data) = Some (BOM_CHAR :: content) /\
  strip (BOM_CHAR :: content) = BOM_CHAR :: rstrip content.
Proof.
  intros H. split.
  - rewrite decode_with_two, utf_8_decode_marker, H. reflexivity.
  - unfold strip. cbn [lstrip]. change (isspace BOM_CHAR) with false.
    cbv beta match. unfold rstrip. cbn [rev].
    rewrite lstrip_app.
    destruct (forallb isspace (rev content)) eqn:Hall.
    + cbn. rewrite (lstrip_spaces _ Hall). reflexivity.
    + rewrite rev_app_distr. reflexivity.
Qed.

End DecodeFacts.

Section FileMore.

Context {xml : Type} `{C : Collaborators xml}.

Lemma replies_app (a b : list event) : replies (a ++ b) = replies a ++ replies b.
Proof. apply flat_map_app. Qed.

(** X18. A file of valid UTF-8 gives the queries of its text: when the
    document passes the size and type checks and is downloaded, and its
    bytes are the UTF-8 encoding of [content], then
    [extract_queries_from_file] returns what [extract_queries_from_text]
    returns on [content], sending no reply. *)
Theorem utf_8_file_as_text (message : Message) (doc : Document)
    (path content : str) (data : bytes) (tr : list event) :
  document message = Some doc ->
  over_size (file_size doc) = false ->
  accepted_mime (mime_type doc) = true ->
  get_file (file_id doc) = Return path ->
  download_file path = Return data ->
  Codec.utf_8_encode content = Some data ->
  extract_queries_from_file message tt tr
  = (Return (Some (extract_queries_from_text content)), tt,
     tr ++ [GetFile (file_id doc); DownloadFile path]).
Proof.
  intros Hdoc Hsize Hmime Hpath Hdata Henc.
  unfold extract_queries_from_file, extract_queries_from_file_on,
    try_except, bind, call, ret, Exception, reliable, reply, answer.
  rewrite Hdoc, Hsize, Hmime, Hpath, Hdata. cbn [negb].
  rewrite decode_with_two, (utf_8_round_trip content data Henc).
  rewrite <- app_assoc. reflexivity.
Qed.

Lemma over_size_iff (n : Z) :
  over_size (Some n) = true <-> n > 10485760.
Proof.
  unfold over_size, MAX_FILE_SIZE. change (10 * 1024 * 1024) with 10485760.
  rewrite andb_true_iff, negb_true_iff, Z.eqb_neq, Z.gtb_gt. lia.
Qed.

(** X19. The declared size is checked first: a document that declares more
    than 10485760 bytes is turned away with the too-large reply, which
    names 10MB, whatever its type and without any download; one that
    declares exactly 10485760 bytes passes the size check. *)
Theorem oversize_rejected_first (message : Message) (doc : Document)
    (n : Z) (tr : list event) :
  document message = Some doc ->
  file_size doc = Some n ->
  n > 10485760 ->
  extract_queries_from_file message tt tr
  = (Return None, tt, tr ++ [Reply Incoming file_too_large_text]) /\
  file_too_large_text = py "❌ Файл слишком большой! Максимум 10MB" /\
  over_size (Some 10485760) = false.
Proof.
  intros Hdoc Hsize Hn.
  unfold extract_queries_from_file, extract_queries_from_file_on, bind,
    call, ret, reliable, reply, answer.
  rewrite Hdoc, Hsize, (proj2 (over_size_iff n) Hn).
  repeat split; vm_compute; reflexivity.
Qed.

(** X20. Every refusal is explained: the replies of
    [extract_queries_from_file] may raise, and still, for a message with a
    document, it returns queries only without having replied, and returns
    [None] only when its last act was a reply that returned, with one of
    the four texts of refusal.  That reply is the only one, unless the
    reply about the encoding raised inside the [try]: then the read-error
    reply follows it.  An [Exception] leaves the function only when a reply
    raised it, as its last act. *)
Theorem refusal_explained (ch : Channel) (message : Message)
    (doc : Document) (tr : list event) :
  document message = Some doc ->
  exists r evs,
    extract_queries_from_file_on ch message tt tr = (r, tt, tr ++ evs) /\
    match r with
    | Return (Some _) => replies evs = []
    | Return None =>
        exists before t,
          evs = before ++ [Reply Incoming t] /\
          reply ch Incoming t = Return tt /\
          In t refusal_texts /\
          (replies before = [] \/
           replies before = [undecodable_text] /\ t = read_error_text)
    | Raise e =>
        Exception e = true ->
        exists before t,
          evs = before ++ [Reply Incoming t] /\
          reply ch Incoming t = Raise e
    end.
Proof.
  intros Hdoc.
  unfold extract_queries_from_file_on, try_except, bind, call, ret,
    Exception, refusal_texts.
  rewrite Hdoc.
  destruct (over_size (file_size doc)).
  { destruct (reply ch Incoming file_too_large_text) as [[]|e] eqn:Hr;
      do 2 eexists; (split; [reflexivity|]); [|intros _];
      exists [], file_too_large_text; cbn [app In replies flat_map]; tauto. }
  destruct (negb (accepted_mime (mime_type doc))).
  { destruct (reply ch Incoming not_text_file_text) as [[]|e] eqn:Hr;
      do 2 eexists; (split; [reflexivity|]); [|intros _];
      exists [], not_text_file_text; cbn [app In replies flat_map]; tauto. }
  destruct (get_file (file_id doc)) as [path|e].
  2:{ destruct (reply ch Incoming read_error_text) as [[]|e'] eqn:Hr;
        do 2 eexists; (split; [rewrite <- app_assoc; reflexivity|]);
        [|intros _]; exists [GetFile (file_id doc)], read_error_text;
        cbn [app In replies flat_map]; tauto. }
  destruct (download_file path) as [data|e].
  2:{ destruct (reply ch Incoming read_error_text) as [[]|e'] eqn:Hr;
        do 2 eexists; (split; [rewrite <- !app_assoc; reflexivity|]);
        [|intros _];
        exists [GetFile (file_id doc); DownloadFile path], read_error_text;
        cbn [app In replies flat_map]; tauto. }
  destruct (decode_with encodings data) as [content|].
  { do 2 eexists. split; [rewrite <- !app_assoc; reflexivity|]. reflexivity. }
  destruct (reply ch Incoming undecodable_text) as [[]|e] eqn:Hr.
  { do 2 eexists. split; [rewrite <- !app_assoc; reflexivity|].
    exists [GetFile (file_id doc); DownloadFile path], undecodable_text.
    cbn [app In replies flat_map]. tauto. }
  destruct (reply ch Incoming read_error_text) as [[]|e'] eqn:Hr';
    do 2 eexists; (split; [rewrite <- !app_assoc; reflexivity|]);
    [|intros _];
    exists [GetFile (file_id doc); DownloadFile path;
            Reply Incoming undecodable_text], read_error_text;
    cbn [app In replies flat_map]; tauto.
Qed.

End FileMore.

(** * Further properties of the handler *)

Section HandlerMore.

Context {xml : Type} `{C : Collaborators xml}.

(** [report], event by event. *)
Lemma report_shape (queries : list str) (tr : list event) :
  exists o evs,
    process_queries queries Status
      (tr ++ [Answer (starting_text (format_minutes (len queries))
                                    (len queries))])
    = (Return o,
       (tr ++ [Answer (starting_text (format_minutes (len queries))
                                     (len queries))]) ++ evs) /\
    forallb batch_event evs = true /\
    report queries tt tr
    = (Return tt, tt,
       (tr ++ [Answer (starting_text (format_minutes (len queries))
                                     (len queries))]) ++ evs
       ++ sending_events (len queries) o).
Proof.
  set (tr0 := tr ++ [Answer (starting_text (format_minutes (len queries))
                                           (len queries))]).
  destruct (process_queries_total queries Status tr0)
    as (o & evs & Hrun & Hevs).
  exists o, evs. split; [exact Hrun|]. split; [exact Hevs|].
  unfold report, report_on, run_process_queries_on, try_except, bind, call,
    ret, Exception.
  change (process_queries_on reliable) with (process_queries (C := C)).
  unfold reliable, reply, answer.
  fold tr0. rewrite Hrun. unfold sending_events, send_reply.
  destruct o as [data|]; [|rewrite app_nil_r; reflexivity].
  destruct (edit_text_sending sending_text) as [[]|e].
  2:{ destruct (isTelegramNetworkError e); rewrite <- !app_assoc;
        reflexivity. }
  destruct (answer_document data (report_filename (len queries))
                            (report_caption (len queries))) as [[]|e].
  - destruct delete as [[]|e]; rewrite <- !app_assoc; reflexivity.
  - destruct (isTelegramNetworkError e); rewrite <- !app_assoc; reflexivity.
Qed.

Lemma batch_events_no_delete (evs : list event) :
  forallb batch_event evs = true -> existsb is_delete evs = false.
Proof.
  induction evs as [|ev evs IH]; [reflexivity|].
  cbn [forallb existsb]. intros H. apply andb_true_iff in H as [Hev Hevs].
  rewrite (IH Hevs). destruct ev; try discriminate Hev; reflexivity.
Qed.

Lemma sending_events_facts (n : Z) (o : option bytes) :
  (List.length (documents (sending_events n o)) <= 1)%nat /\
  (existsb is_delete (sending_events n o) = true ->
   exists data filename caption,
     In (AnswerDocument data filename caption) (sending_events n o) /\
     answer_document data filename caption = Return tt).
Proof.
  unfold sending_events. destruct o as [data|]; [|split; [cbn; lia | discriminate]].
  destruct (edit_text_sending sending_text) as [[]|e];
    [|split; [cbn; lia | discriminate]].
  destruct (answer_document data (report_filename n) (report_caption n))
    as [[]|e] eqn:Hsend; split; cbn; try lia; try discriminate.
  intros _. exists data, (report_filename n), (report_caption n).
  split; [right; left; reflexivity | exact Hsend].
Qed.

Lemma report_well_reported (queries : list str) (tr : list event) :
  exists evs,
    report queries tt tr = (Return tt, tt, tr ++ evs) /\ well_reported evs.
Proof.
  destruct (report_shape queries tr) as (o & evs & _ & Hevs & Hrun).
  eexists. split; [rewrite Hrun, <- !app_assoc; reflexivity|].
  destruct (sending_events_facts (len queries) o) as [Hone Hdel].
  pose proof (batch_events_no_document evs Hevs) as Hnodoc.
  pose proof (batch_events_no_delete evs Hevs) as Hnodel.
  unfold well_reported. cbn [app existsb user_message orb].
  split; [reflexivity|].
  change (documents (?a :: ?b)) with (documents ([a] ++ b)).
  rewrite !documents_app, Hnodoc. cbn [documents flat_map app].
  split; [exact Hone|].
  cbn [is_delete orb]. rewrite existsb_app, Hnodel. cbn [orb].
  intros H. destruct (Hdel H) as (d & f & c & Hin & Hok).
  exists d, f, c. split; [|exact Hok].
  right. apply in_or_app. right. exact Hin.
Qed.

Lemma with_queries_well_reported (queries : list str) (tr : list event) :
  exists evs,
    with_queries queries tt tr = (Return tt, tt, tr ++ evs) /\
    well_reported evs.
Proof.
  destruct queries as [|q queries]; [|apply report_well_reported].
  eexists. split; [reflexivity|].
  repeat split; cbn; [lia | discriminate].
Qed.

(** The file extraction sends no document and removes nothing; when it
    returns [None] for a message with a document, it has told the user. *)
Lemma extract_queries_from_file_events (message : Message) (tr : list event) :
  exists r evs,
    extract_queries_from_file message tt tr = (Return r, tt, tr ++ evs) /\
    documents evs = [] /\ existsb is_delete evs = false /\
    (r = None -> document message <> None -> existsb user_message evs = true).
Proof.
  unfold extract_queries_from_file, extract_queries_from_file_on,
    try_except, bind, call, ret, Exception, reliable, reply, answer.
  destruct (document message) as [doc|].
  2:{ exists None, []. rewrite app_nil_r. repeat split. intros _ H.
      contradiction H. reflexivity. }
  destruct (over_size (file_size doc));
    [do 2 eexists; split; [reflexivity | repeat split]|].
  destruct (negb (accepted_mime (mime_type doc)));
    [do 2 eexists; split; [reflexivity | repeat split]|].
  destruct (get_file (file_id doc)) as [path|e];
    [|do 2 eexists; split; [rewrite <- app_assoc; reflexivity | repeat split]].
  destruct (download_file path) as [data|e];
    [|do 2 eexists; split; [rewrite <- !app_assoc; reflexivity | repeat split]].
  destruct (decode_with encodings data) as [content|];
    do 2 eexists; (split; [rewrite <- !app_assoc; reflexivity|]);
    repeat split. intros H. discriminate H.
Qed.

Lemma handle_message_well_reported (message : Message) (tr : list event) :
  exists evs,
    handle_message message tt tr = (Return tt, tt, tr ++ evs) /\
    well_reported evs.
Proof.
  unfold handle_message, handle_message_on, try_except, Exception.
  change (with_queries_on reliable) with (with_queries (C := C)).
  change (extract_queries_from_file_on reliable)
    with (extract_queries_from_file (C := C)).
  unfold reliable, reply.
  destruct (is_plain_text (text message)).
  { destruct (with_queries_well_reported
                (extract_queries_from_text
                   match text message with Some s => s | None => [] end) tr)
      as (evs & -> & Hw).
    exists evs. split; [reflexivity | exact Hw]. }
  destruct (document message) as [doc|] eqn:Hdoc.
  2:{ destruct (with_queries_well_reported [] tr) as (evs & -> & Hw).
      exists evs. split; [reflexivity | exact Hw]. }
  unfold bind.
  destruct (extract_queries_from_file_events message tr)
    as (r & ev1 & -> & Hdocs & Hdel & Htold).
  destruct r as [qs|].
  - destruct (with_queries_well_reported qs (tr ++ ev1))
      as (ev2 & -> & Hu & Hone & Hd).
    exists (ev1 ++ ev2). split; [rewrite app_assoc; reflexivity|].
    unfold well_reported.
    rewrite !existsb_app, documents_app, Hdocs, Hdel, Hu, orb_true_r.
    repeat split; [assumption|]. cbn [orb]. intros H.
    destruct (Hd H) as (d & f & c & Hin & Hok).
    exists d, f, c. split; [apply in_or_app; right; exact Hin | exact Hok].
  - exists ev1. split; [reflexivity|]. unfold well_reported.
    rewrite Hdocs, Hdel. repeat split.
    + apply Htold; [reflexivity | rewrite Hdoc; discriminate].
    + cbn. lia.
    + discriminate.
Qed.

(** On any channel [report] begins with the starting answer. *)
Lemma report_on_answers (ch : Channel) (queries : list str)
    (tr : list event) :
  exists r evs,
    report_on ch queries tt tr = (r, tt, tr ++ evs) /\
    existsb user_message evs = true.
Proof.
  unfold report_on, run_process_queries_on, try_except, bind, call, ret,
    Exception.
  set (started := Answer (starting_text (format_minutes (len queries))
                                        (len queries))).
  assert (Hev : forall rest, existsb user_message (started :: rest) = true)
    by reflexivity.
  assert (Hshape : forall (r : result unit) rest,
            exists r' evs,
              (r, tt, tr ++ [started] ++ rest) = (r', tt, tr ++ evs) /\
              existsb user_message evs = true).
  { intros r rest. exists r, (started :: rest). split; [|apply Hev].
    reflexivity. }
  destruct (answer ch (starting_text (format_minutes (len queries))
                                     (len queries))) as [[]|e].
  2:{ do 2 eexists. split; reflexivity. }
  destruct (process_queries_on_extends ch queries Status (tr ++ [started]))
    as (o & mid & ->).
  destruct o as [[data|]|e]; try (rewrite <- !app_assoc; apply Hshape).
  destruct (edit_text_sending sending_text) as [[]|e].
  2:{ destruct (isTelegramNetworkError e);
        [destruct (reply ch Incoming send_network_error_text)
        |destruct (reply ch Incoming send_error_text)];
        rewrite <- !app_assoc; apply Hshape. }
  destruct (answer_document data (report_filename (len queries))
                            (report_caption (len queries))) as [[]|e].
  - destruct delete as [[]|e]; rewrite <- !app_assoc; apply Hshape.
  - destruct (isTelegramNetworkError e);
      [destruct (reply ch Incoming send_network_error_text)
      |destruct (reply ch Incoming send_error_text)];
      rewrite <- !app_assoc; apply Hshape.
Qed.

Lemma with_queries_on_tells (ch : Channel) (queries : list str)
    (tr : list event) :
  exists r evs,
    with_queries_on ch queries tt tr = (r, tt, tr ++ evs) /\
    existsb user_message evs = true.
Proof.
  destruct queries as [|q queries]; [|apply report_on_answers].
  unfold with_queries_on, call. do 2 eexists. split; reflexivity.
Qed.

(** On any channel the file extraction only adds to the trace, and has
    turned to the user when it returns [None] for a message with a
    document. *)
Lemma extract_queries_from_file_on_tells (ch : Channel) (message : Message)
    (tr : list event) :
  document message <> None ->
  exists r evs,
    extract_queries_from_file_on ch message tt tr = (r, tt, tr ++ evs) /\
    (r = Return None -> existsb user_message evs = true).
Proof.
  intros Hdoc. unfold extract_queries_from_file_on, try_except, bind, call,
    ret, Exception.
  destruct (document message) as [doc|]; [|contradiction Hdoc; reflexivity].
  destruct (over_size (file_size doc)).
  { destruct (reply ch Incoming file_too_large_text);
      do 2 eexists; split; reflexivity. }
  destruct (negb (accepted_mime (mime_type doc))).
  { destruct (reply ch Incoming not_text_file_text);
      do 2 eexists; split; reflexivity. }
  destruct (get_file (file_id doc)) as [path|e].
  2:{ destruct (reply ch Incoming read_error_text);
        do 2 eexists; (split; [rewrite <- app_assoc; reflexivity|]);
        reflexivity. }
  destruct (download_file path) as [data|e].
  2:{ destruct (reply ch Incoming read_error_text);
        do 2 eexists; (split; [rewrite <- !app_assoc; reflexivity|]);
        reflexivity. }
  destruct (decode_with encodings data) as [content|].
  { do 2 eexists. split; [rewrite <- !app_assoc; reflexivity|].
    intros H. discriminate H. }
  destruct (reply ch Incoming undecodable_text).
  { do 2 eexists. split; [rewrite <- !app_assoc; reflexivity|]. reflexivity. }
  destruct (reply ch Incoming read_error_text);
    do 2 eexists; (split; [rewrite <- !app_assoc; reflexivity|]); reflexivity.
Qed.

(** X21. The handler does not return in silence: the replies and the
    answer may raise, and still every run of [handle_message] that returns
    has called a reply or an answer at least once.  An [Exception] leaves
    the handler only when its last reply, that of the outer [except],
    raised it. *)
Theorem handler_never_silent (ch : Channel) (message : Message)
    (tr : list event) :
  exists r evs,
    handle_message_on ch message tt tr = (r, tt, tr ++ evs) /\
    match r with
    | Return _ => existsb user_message evs = true
    | Raise e =>
        Exception e = true ->
        exists before,
          evs = before ++ [Reply Incoming unexpected_error_text] /\
          reply ch Incoming unexpected_error_text = Raise e
    end.
Proof.
  assert (Hcatch : forall (body : M unit unit),
            (exists r evs,
               body tt tr = (r, tt, tr ++ evs) /\
               (r = Return tt -> existsb user_message evs = true)) ->
            exists r evs,
              try_except body Exception
                (fun _ => call (Reply Incoming unexpected_error_text)
                               (reply ch Incoming unexpected_error_text))
                tt tr
              = (r, tt, tr ++ evs) /\
              match r with
              | Return _ => existsb user_message evs = true
              | Raise e =>
                  Exception e = true ->
                  exists before,
                    evs = before ++ [Reply Incoming unexpected_error_text] /\
                    reply ch Incoming unexpected_error_text = Raise e
              end).
  { intros body (r & evs & Hrun & Hu). unfold try_except, Exception, call.
    rewrite Hrun. destruct r as [[]|e].
    - exists (Return tt), evs. split; [reflexivity | apply Hu; reflexivity].
    - destruct (reply ch Incoming unexpected_error_text) as [[]|e'];
        do 2 eexists; (split; [rewrite <- app_assoc; reflexivity|]).
      + rewrite existsb_app. cbn. apply orb_true_r.
      + intros _. exists evs. split; reflexivity. }
  unfold handle_message_on. apply Hcatch.
  assert (Htells : forall queries tr0 before,
            tr0 = tr ++ before ->
            exists r evs,
              with_queries_on ch queries tt tr0 = (r, tt, tr ++ evs) /\
              (r = Return tt -> existsb user_message evs = true)).
  { intros queries tr0 before ->.
    destruct (with_queries_on_tells ch queries (tr ++ before))
      as (r & evs & -> & Hu).
    exists r, (before ++ evs). split; [rewrite app_assoc; reflexivity|].
    intros _. rewrite existsb_app, Hu. apply orb_true_r. }
  destruct (is_plain_text (text message)).
  { apply (Htells _ tr []). symmetry. apply app_nil_r. }
  destruct (document message) as [doc|] eqn:Hdoc.
  2:{ apply (Htells _ tr []). symmetry. apply app_nil_r. }
  unfold bind.
  destruct (extract_queries_from_file_on_tells ch message tr)
    as (r & evs & -> & Hu); [rewrite Hdoc; discriminate|].
  destruct r as [[qs|]|e].
  - apply (Htells qs _ evs). reflexivity.
  - exists (Return tt), evs. split; [reflexivity|].
    intros _. apply Hu. reflexivity.
  - exists (Raise e), evs. split; [reflexivity|]. intros H. discriminate H.
Qed.

(** X22. One message, at most one report: [handle_message] sends at most
    one document, and removes the status message only after
    [answer_document] has returned for a document of this run. *)
Theorem one_document_then_cleanup (message : Message) (tr : list event) :
  exists evs,
    handle_message message tt tr = (Return tt, tt, tr ++ evs) /\
    (List.length (documents evs) <= 1)%nat /\
    (existsb is_delete evs = true ->
     exists data filename caption,
       In (AnswerDocument data filename caption) evs /\
       answer_document data filename caption = Return tt).
Proof.
  destruct (handle_message_well_reported message tr)
    as (evs & Hrun & _ & Hone & Hdel).
  exists evs. repeat split; assumption.
Qed.




(** X26. A status message that cannot be removed does not matter: when
    the document has been sent, the handler ends after the attempt to delete
    the status message, with no further reply, whether the deletion returns
    or raises. *)
Theorem delete_failure_ignored (queries : list str) (tr tr1 : list event)
    (data : bytes) :
  process_queries queries Status
    (tr ++ [Answer (starting_text (format_minutes (len queries))
                                  (len queries))])
  = (Return (Some data), tr1) ->
  edit_text_sending sending_text = Return tt ->
  answer_document data (report_filename (len queries))
                  (report_caption (len queries)) = Return tt ->
  report queries tt tr
  = (Return tt, tt,
     tr1 ++ [EditText Status sending_text;
             AnswerDocument data (report_filename (len queries))
                            (report_caption (len queries));
             Delete Status]).
Proof.
  intros Hrun Hedit Hsend.
  destruct (report_shape queries tr) as (o & evs & Hrun' & _ & ->).
  rewrite Hrun in Hrun'. injection Hrun' as <- ->.
  unfold sending_events. rewrite Hedit, Hsend, app_assoc. reflexivity.
Qed.


End HandlerMore.

(** * Runs of the further properties on concrete inputs *)

(** [lookups_once_in_order] on the three queries whose second lookup
    raises: all three are looked up. *)
Lemma lookups_once_in_order_witness :
  searches (snd (process_queries (C := fails_at 2) three_queries Status []))
  = searches [] ++ map strip (filter nonblank three_queries).
Proof.
  apply (lookups_once_in_order (C := fails_at 2) three_queries Status []).
  - vm_compute. discriminate.
  - reflexivity.
Defined.

(** [client_failure_aborts] when the client cannot be made. *)
Lemma client_failure_aborts_witness :
  process_queries (C := no_client) three_queries Status []
  = (Return None,
     [] ++ [Reply Status
              (failure_text (str_of_exn (Collaborators := no_client) timeout))])
  /\ searches (snd (process_queries (C := no_client) three_queries Status []))
     = searches [].
Proof.
  apply (client_failure_aborts (C := no_client) three_queries Status [] timeout).
  - vm_compute. discriminate.
  - reflexivity.
Defined.

(** [rows_under_header] on the three queries whose second lookup raises. *)
Lemma rows_under_header_witness :
  exists h rows,
    output (snd (fst three_loop)) = Csv.record h ++ flat_map Csv.record rows /\
    len rows = processed (snd (fst three_loop)).
Proof.
  apply (rows_under_header (C := fails_at 2) three_queries Status []
           (snd three_loop) (snd (fst three_loop))).
  - vm_compute. reflexivity.
  - vm_compute. discriminate.
Defined.

(** [report_outcome] on the three queries whose second lookup raises. *)
Lemma report_outcome_witness :
  truthy (output (snd (fst three_loop))) = true /\
  process_queries (C := fails_at 2) three_queries Status []
  = match Codec.utf_8_encode (output (snd (fst three_loop))) with
    | Some body => (Return (Some (Codec.BOM_UTF8 ++ body)), snd three_loop)
    | None =>
        (Return None,
         snd three_loop
         ++ [Reply Status
               (failure_text
                  (str_of_exn (Collaborators := fails_at 2) UnicodeEncodeError))])
    end.
Proof.
  apply (report_outcome (C := fails_at 2) three_queries Status []
           (snd three_loop) (snd (fst three_loop))).
  - vm_compute. discriminate.
  - reflexivity.
  - vm_compute. reflexivity.
  - vm_compute. discriminate.
Defined.

(** A row with a lone surrogate: the loop processes it, the encoding
    raises, the batch is aborted. *)
Example surrogate_aborts :
  process_queries (C := surrogate_cell) [py "a"] Status []
  = (Return None,
     [SearchXmlriver (py "a"); Sleep SLEEP_BETWEEN_REQUESTS;
      Reply Status (failure_text [])]).
Proof. vm_compute. reflexivity. Qed.

(** [delays_match_processed] on ten queries whose status edit raises
    [TelegramBadRequest]. *)
Lemma delays_match_processed_witness :
  exists l evs,
    after_loop (C := edits_raise TelegramBadRequest) ten_queries Status []
    = (Return tt, l, [] ++ evs) /\
    Z.of_nat (sleeps evs) = processed l.
Proof.
  apply (delays_match_processed (C := edits_raise TelegramBadRequest)
           ten_queries Status []).
  intros i t. reflexivity.
Defined.

(** Ten delays for ten processed queries, the refused edit included. *)
Example bad_request_run :
  processed (locals_after (C := edits_raise TelegramBadRequest)
               ten_queries Status []) = 10 /\
  sleeps (snd (after_loop (C := edits_raise TelegramBadRequest)
                 ten_queries Status [])) = 10%nat.
Proof. split; vm_compute; reflexivity. Qed.


(** [report_ignores_status_edits]: status edits that raise a network error
    against status edits that return. *)
Lemma report_ignores_status_edits_witness :
  locals_after (C := edits_raise TelegramNetworkError) ten_queries Status []
  = locals_after (C := all_fine) ten_queries Status [].
Proof.
  apply (report_ignores_status_edits (edits_raise TelegramNetworkError) all_fine
           ten_queries Status Status [] []).
  repeat split.
Defined.

(** [legacy_fallback] on three bytes of windows-1251. *)
Lemma legacy_fallback_witness :
  exists content,
    decode_with encodings legacy_bytes = Some content /\
    Codec.cp1251_decode legacy_bytes = Some content /\
    List.length content = List.length legacy_bytes.
Proof.
  apply (legacy_fallback legacy_bytes).
  - vm_compute. reflexivity.
  - vm_compute. intros [H | [H | [H | []]]]; discriminate H.
Defined.

Example legacy_fallback_value :
  decode_with encodings legacy_bytes = Some (py "При").
Proof. vm_compute. reflexivity. Qed.

(** [marker_kept] on a file saved with the marker. *)
Lemma marker_kept_witness :
  decode_with encodings (Codec.BOM_UTF8 ++ list_byte_of_string "# note")
  = Some (BOM_CHAR :: py "# note") /\
  strip (BOM_CHAR :: py "# note") = BOM_CHAR :: rstrip (py "# note").
Proof.
  apply (marker_kept (list_byte_of_string "# note") (py "# note")).
  vm_compute. reflexivity.
Defined.

(** Behind the marker a comment line is no comment any more. *)
Example marker_hides_comment :
  extract_queries_from_text (BOM_CHAR :: py "# note") = [BOM_CHAR :: py "# note"]
  /\ extract_queries_from_text (py "# note") = [].
Proof. split; vm_compute; reflexivity. Qed.

(** [utf_8_file_as_text] on the text file of two lines. *)
Lemma utf_8_file_as_text_witness :
  extract_queries_from_file (C := serving two_line_file) zero_sized_upload tt []
  = (Return (Some (extract_queries_from_text (py "foo" ++ [LF] ++ py "bar"))),
     tt,
     [] ++ [GetFile (file_id zero_sized_text); DownloadFile (py "documents/f2")]).
Proof.
  apply (utf_8_file_as_text (C := serving two_line_file) zero_sized_upload
           zero_sized_text (py "documents/f2") (py "foo" ++ [LF] ++ py "bar")
           two_line_file []);
    vm_compute; reflexivity.
Defined.

(** [oversize_rejected_first] on an image of 10485761 declared bytes. *)
Lemma oversize_rejected_first_witness :
  extract_queries_from_file (C := all_fine) oversized_upload tt []
  = (Return None, tt, [] ++ [Reply Incoming file_too_large_text]) /\
  file_too_large_text = py "❌ Файл слишком большой! Максимум 10MB" /\
  over_size (Some 10485760) = false.
Proof.
  apply (oversize_rejected_first (C := all_fine) oversized_upload
           oversized_image 10485761 []).
  - reflexivity.
  - reflexivity.
  - vm_compute. reflexivity.
Defined.

(** [refusal_explained] on a text file in no known encoding while no
    reply gets through: the reply about the encoding raises inside the
    [try], the read-error reply follows and raises in turn. *)
Lemma refusal_explained_witness :
  exists r evs,
    extract_queries_from_file_on (C := serving undecodable_bytes)
      replies_lost unsized_upload tt []
    = (r, tt, [] ++ evs) /\
    match r with
    | Return (Some _) => replies evs = []
    | Return None =>
        exists before t,
          evs = before ++ [Reply Incoming t] /\
          reply replies_lost Incoming t = Return tt /\
          In t refusal_texts /\
          (replies before = [] \/
           replies before = [undecodable_text] /\ t = read_error_text)
    | Raise e =>
        Exception e = true ->
        exists before t,
          evs = before ++ [Reply Incoming t] /\
          reply replies_lost Incoming t = Raise e
    end.
Proof.
  apply (refusal_explained (C := serving undecodable_bytes) replies_lost
           unsized_upload unsized_text []).
  reflexivity.
Defined.

(** The run of that witness: two replies, both lost. *)
Example two_refusals_lost :
  extract_queries_from_file_on (C := serving undecodable_bytes)
    replies_lost unsized_upload tt []
  = (Raise TelegramNetworkError, tt,
     [GetFile (py "f4"); DownloadFile (py "documents/f4");
      Reply Incoming undecodable_text; Reply Incoming read_error_text]).
Proof. vm_compute. reflexivity. Qed.





(** [delete_failure_ignored] when the status message cannot be removed. *)
Lemma delete_failure_ignored_witness :
  report (C := status_frozen (Return tt)) three_queries tt []
  = (Return tt, tt,
     snd (frozen_report (Return tt))
     ++ [EditText Status sending_text;
         AnswerDocument (payload_of (frozen_report (Return tt)))
           (report_filename (len three_queries))
           (report_caption (len three_queries));
         Delete Status]).
Proof.
  apply (delete_failure_ignored (C := status_frozen (Return tt))
           three_queries [] (snd (frozen_report (Return tt)))
           (payload_of (frozen_report (Return tt)))).
  - vm_compute. reflexivity.
  - reflexivity.
  - reflexivity.
Defined.

